(** * The graded-encoding wrapper of obfusc8, embedded in Rocq

    The repository wraps the native GGHLite library (a candidate graded
    encoding scheme) as a Sage ring: [Encoded_Parent] is the parameter
    context, [Encoded_Element] an encoding.  Two variants of the wrapper
    are in the source tree:

    - [wrapper/wrapper.pyx] with the declarations of [unnamed/part_001]
      (module [Wrapper] below), the variant [wrapper/test.sage] drives;
    - [unnamed/part_000] with the declarations of [wrapper/gghlite.pxd]
      and [wrapper/wrapper.pxd] (module [Part000] below), the older one.

    The native library is external: every [cdef extern] function is a
    field of an interface class, an out-parameter becomes a result, and a
    [flint_rand_t] that a call may advance is passed in and handed back.
    Python objects live in a heap of parents indexed by object identity;
    every call into the native library is appended to a trace.  An object
    whose [__init__] raises is released at once, as reference counting
    has it: its [__dealloc__] runs before the caller sees the exception. *)

From Stdlib Require Import ZArith Lia.
From stdpp Require Import base option list.

Local Open Scope Z_scope.

(** ** Python side: exceptions, heap-and-trace monad, C integer conversions *)

(** [OverflowError] is what Cython raises when a Python integer does not fit
    the C type it is converted to; [TypeError] is what [reduce] raises on an
    empty sequence.  [BadObject] stands for a reference that
    is not an [Encoded_Parent] of the heap: the wrappers cast
    [<Encoded_Parent>parent] without a check, so Python gives that case no
    meaning and the constructors below never produce such a reference. *)
Inductive PyExn : Type :=
| OverflowError
| TypeError
| BadObject.

(** The calls into flint and gghlite, with their scalar arguments. *)
Inductive native_call : Type :=
| call_flint_randinit_seed (seed gmp : Z)
| call_flint_randclear
| call_flint_cleanup
| call_mpfr_free_cache
| call_gghlite_init (lamb kappa rerand_mask flags : Z)
(* part_001 *)
| call_gghlite_params_ref
| call_gghlite_sk_get_p
| call_gghlite_sk_clear (clear_params : Z)
| call_gghlite_params_clear
| call_gghlite_enc_init
| call_gghlite_enc_clear
| call_gghlite_enc_set_gghlite_clr (k i rerand : Z)
| call_gghlite_enc_mul
| call_gghlite_enc_add
| call_gghlite_enc_sub
| call_gghlite_enc_is_zero
(* wrapper/gghlite.pxd *)
| call_gghlite_pk_ref
| call_gghlite_pk_clear
| call_gghlite_clear (clear_pk : Z)
| call_gghlite_sample (k : Z)
| call_gghlite_mul
| call_gghlite_add
| call_gghlite_is_zero.

Section PyMonad.
Context {Heap : Type}.

(** The interpreter state a wrapper call can touch. *)
Record World : Type := mkWorld { parents : list Heap; trace : list native_call }.

(** A Python call: it returns or raises, and leaves a world either way. *)
Definition Py (A : Type) : Type := World -> (PyExn + A) * World.

Definition ret {A} (a : A) : Py A := fun w => (inr a, w).
Definition raise {A} (e : PyExn) : Py A := fun w => (inl e, w).
Definition bind {A B} (m : Py A) (k : A -> Py B) : Py B :=
  fun w => match m w with
           | (inr a, w') => k a w'
           | (inl e, w') => (inl e, w')
           end.

(** Record a native call. *)
Definition native (c : native_call) : Py unit :=
  fun w => (inr tt, mkWorld (parents w) (trace w ++ [c])).

(** Dereference a parent object. *)
Definition deref (o : nat) : Py Heap :=
  fun w => match parents w !! o with
           | Some P => (inr P, w)
           | None => (inl BadObject, w)
           end.

(** Assign the fields of a parent object in place. *)
Definition assign (o : nat) (P : Heap) : Py unit :=
  fun w => (inr tt, mkWorld (<[o := P]> (parents w)) (trace w)).

(** Allocate a parent object; its identity is its index in the heap. *)
Definition alloc (P : Heap) : Py nat :=
  fun w => (inr (length (parents w)), mkWorld (parents w ++ [P]) (trace w)).

(** The identity of the parent object [__cinit__] has just built: the one
    the next allocation enters into the heap. *)
Definition new_object : Py nat :=
  fun w => (inr (length (parents w)), w).

(** Python's call of a class.  The object exists when [__init__] runs;
    when [__init__] raises, the last reference to it is dropped and its
    [__dealloc__] runs, and then the exception goes on to the caller. *)
Definition released_on_raise {A} (dealloc : Py unit) (init : Py A) : Py A :=
  fun w => match init w with
           | (inr a, w') => (inr a, w')
           | (inl e, w') => (inl e, snd (dealloc w'))
           end.

Definition empty_world : World := mkWorld [] [].

(** [m] returns from [w], and its result and final world satisfy [Q]. *)
Definition returns {A} (m : Py A) (w : World) (Q : A -> World -> Prop) : Prop :=
  exists a w', m w = (inr a, w') /\ Q a w'.

(** [m] appends to the trace only, and none of the native calls it makes is
    one of [bad]. *)
Definition never_calls (bad : native_call -> Prop) {A} (m : Py A) : Prop :=
  forall w, exists t, trace (snd (m w)) = trace w ++ t /\ Forall (fun c => ~ bad c) t.

(** [m] leaves the heap as it is. *)
Definition keeps_heap {A} (m : Py A) : Prop :=
  forall w, parents (snd (m w)) = parents w.
End PyMonad.

(** The native calls that clear a GGHLite instance, the secret key with it. *)
Definition clears_instance (c : native_call) : Prop :=
  match c with
  | call_gghlite_sk_clear _ | call_gghlite_clear _ => True
  | _ => False
  end.

Arguments World : clear implicits.
Arguments Py : clear implicits.

Declare Scope py_scope.
Delimit Scope py_scope with py.
Notation "'do' x <~ m ;; k" := (bind m (fun x => k))
  (at level 10, x name, m at level 99, k at level 200) : py_scope.
Notation "'run' m ;; k" := (bind m (fun _ => k))
  (at level 10, m at level 99, k at level 200) : py_scope.
Local Open Scope py_scope.

(** [mp_limb_t] and [size_t] are 64-bit unsigned; Cython converts a Python
    integer to them on assignment or at the call, raising [OverflowError]
    for a negative value and for one that is too large. *)
Definition SIZE_MAX : Z := 2 ^ 64 - 1.

Definition as_unsigned {Heap} (n : Z) : Py Heap Z :=
  if (0 <=? n) && (n <=? SIZE_MAX) then ret n else raise OverflowError.

Definition as_size_t {Heap} : Z -> Py Heap Z := as_unsigned.
Definition as_mp_limb_t {Heap} : Z -> Py Heap Z := as_unsigned.

(** Python's [reduce(f, xs)] without an initial value, and a list
    comprehension whose body calls into the wrapper. *)
Fixpoint reduce_from {Heap A} (f : A -> A -> Py Heap A) (acc : A) (xs : list A) : Py Heap A :=
  match xs with
  | [] => ret acc
  | x :: xs' => do acc' <~ f acc x ;; reduce_from f acc' xs'
  end.

Definition reduce {Heap A} (f : A -> A -> Py Heap A) (xs : list A) : Py Heap A :=
  match xs with
  | [] => raise TypeError
  | x :: xs' => reduce_from f x xs'
  end.

Definition range (lo hi : Z) : list Z :=
  map (fun i => lo + Z.of_nat i) (seq 0 (Z.to_nat (hi - lo))).

(** Python 2's [range(lo, hi)] as the interpreter calls it: the list is
    built at once, and a length that does not fit a C [long] (64-bit
    and signed, where [size_t] is 64-bit) raises [OverflowError].  A
    list the machine has no memory for is outside the model. *)
Definition LONG_MAX : Z := 2 ^ 63 - 1.

Definition builtin_range {Heap} (lo hi : Z) : Py Heap (list Z) :=
  if hi - lo <=? LONG_MAX then ret (range lo hi) else raise OverflowError.

Fixpoint comprehension {Heap A B} (f : A -> Py Heap B) (xs : list A) : Py Heap (list B) :=
  match xs with
  | [] => ret []
  | x :: xs' => do y <~ f x ;; do ys <~ comprehension f xs' ;; ret (y :: ys)
  end.

(** ** Sage side: the rings a parent can be built over *)
Inductive SageRing : Type :=
| QQ
| ZZ
| Integers (n : Z).

Inductive SageCategory : Type :=
| Rings
| CommutativeRings
| Fields.

(** flint's [fmpz_poly_t]: the coefficient list, lowest degree first, kept
    without a trailing zero. *)
Definition fmpz_poly : Type := list Z.

Fixpoint fmpz_poly_normalise (f : fmpz_poly) : fmpz_poly :=
  match f with
  | [] => []
  | c :: f' =>
      match fmpz_poly_normalise f' with
      | [] => if c =? 0 then [] else [c]
      | g => c :: g
      end
  end.

Definition fmpz_poly_set_coeff_fmpz (f : fmpz_poly) (n : nat) (x : Z) : fmpz_poly :=
  fmpz_poly_normalise (<[n := x]> (f ++ replicate (S n - length f) 0)).

Definition fmpz_poly_get_coeff (f : fmpz_poly) (n : nat) : Z := nth n f 0.


(** ** [wrapper/wrapper.pyx] over the interface of [unnamed/part_001] *)
Module Wrapper.

(** The [cdef extern] block of [unnamed/part_001].  The values of the
    [gghlite_flag_t] enumerators come from [gghlite-defs.h], which is
    not part of the repository. *)
Class GGHLite : Type := {
  flint_rand_t : Type;
  gghlite_sk_t : Type;
  gghlite_params_t : Type;
  gghlite_enc_t : Type;
  GGHLITE_FLAGS_DEFAULT : Z;
  GGHLITE_FLAGS_PRIME_G : Z;
  GGHLITE_FLAGS_VERBOSE : Z;
  GGHLITE_FLAGS_GDDH_HARD : Z;
  GGHLITE_FLAGS_ASYMMETRIC : Z;
  GGHLITE_FLAGS_QUIET : Z;
  GGHLITE_FLAGS_GOOD_G_INV : Z;
  flint_randinit_seed : Z -> Z -> flint_rand_t;
  (* Initialise a new GGHLite instance. *)
  gghlite_init : Z -> Z -> Z -> Z -> flint_rand_t -> gghlite_sk_t * flint_rand_t;
  (* get p value *)
  gghlite_sk_get_p : gghlite_sk_t -> Z;
  (* Get a shallow copy of params of op. *)
  gghlite_params_ref : gghlite_sk_t -> gghlite_params_t;
  (* Initialise encoding to zero at level 0. *)
  gghlite_enc_init : gghlite_params_t -> gghlite_enc_t;
  (* Encode f at level k in group G_i. *)
  gghlite_enc_set_gghlite_clr :
    gghlite_sk_t -> fmpz_poly -> Z -> Z -> Z -> flint_rand_t -> gghlite_enc_t * flint_rand_t;
  (* Compute h = f ( * / + / - ) g. *)
  gghlite_enc_mul : gghlite_params_t -> gghlite_enc_t -> gghlite_enc_t -> gghlite_enc_t;
  gghlite_enc_add : gghlite_params_t -> gghlite_enc_t -> gghlite_enc_t -> gghlite_enc_t;
  gghlite_enc_sub : gghlite_params_t -> gghlite_enc_t -> gghlite_enc_t -> gghlite_enc_t;
  (* Return 1 if f is an encoding of zero at level ? *)
  gghlite_enc_is_zero : gghlite_params_t -> gghlite_enc_t -> bool
}.

Section Classes.
Context {G : GGHLite}.

(** [cdef class Encoded_Parent(Ring)]: the fields declared in the class
    body, and the base ring and category [Ring.__init__] stores. *)
Record Encoded_Parent : Type := mkParent {
  base : SageRing;
  category : SageCategory;
  kappa : Z;
  lamb : Z;
  p : Z;
  params : gghlite_params_t;
  randstate : flint_rand_t;
  instance : gghlite_sk_t
}.

(** [cdef class Encoded_Element(RingElement)]: the parent reference
    [RingElement.__init__] stores and the native value. *)
Record Encoded_Element : Type := mkElement {
  _parent : nat;
  value : gghlite_enc_t
}.

Definition set_randstate (P : Encoded_Parent) (r : flint_rand_t) : Encoded_Parent :=
  mkParent (base P) (category P) (kappa P) (lamb P) (p P) (params P) r (instance P).

(** [Encoded_Parent.__dealloc__]; [fmpz_clear(self.p)] is a flint helper
    and leaves no entry in the trace. *)
Definition Encoded_Parent__dealloc__ (self : nat) : Py Encoded_Parent unit :=
  run native call_gghlite_params_clear ;;
  run native call_flint_randclear ;;
  run native call_mpfr_free_cache ;;
  native call_flint_cleanup.

(** [Encoded_Parent(base, kappa, lamb=20, seed=0, category=None)].
    [seed] is a typed argument, converted when the arguments are
    unpacked; [kappa] and [lamb] are converted when they are assigned
    to the [size_t] fields.  [__cinit__] only initialises [p], which
    [gghlite_sk_get_p] overwrites.  The object is entered into the heap
    once [__init__] has run through.  When a conversion raises, the
    caller gets no reference and the object is released: its
    [__dealloc__] runs, on fields that were never initialised.  The
    three [print] statements are left out. *)
Definition Encoded_Parent__init__
    (base : SageRing) (kappa : Z) (lamb : Z) (seed : Z) (category : option SageCategory)
    : Py Encoded_Parent nat :=
  do self <~ new_object ;;
  released_on_raise (Encoded_Parent__dealloc__ self)
   (do seed <~ as_mp_limb_t seed ;;
    let category := match category with Some c => c | None => Rings end in
    do self_kappa <~ as_size_t kappa ;;
    do self_lamb <~ as_size_t lamb ;;
    run native (call_flint_randinit_seed seed 1) ;;
    let randstate := flint_randinit_seed seed 1 in
    (* see gghlite-defs.h for more options *)
    let flags := Z.lor (Z.lor (Z.lor GGHLITE_FLAGS_GDDH_HARD GGHLITE_FLAGS_VERBOSE)
                              GGHLITE_FLAGS_GOOD_G_INV) GGHLITE_FLAGS_ASYMMETRIC in
    (* initialize, get parameters and clear secret parameters *)
    run native (call_gghlite_init self_lamb self_kappa 1 flags) ;;
    let init := gghlite_init self_lamb self_kappa 1 flags randstate in
    let instance := fst init in
    let randstate := snd init in
    run native call_gghlite_params_ref ;;
    let params := gghlite_params_ref instance in
    run native call_gghlite_sk_get_p ;;
    let p := gghlite_sk_get_p instance in
    (* gghlite_sk_clear(instance, 0) is commented out in the source *)
    alloc (mkParent base category self_kappa self_lamb p params randstate instance)).

(** [def getP(self)] *)
Definition getP (self : nat) : Py Encoded_Parent Z :=
  do P <~ deref self ;;
  ret (p P).

(** [Encoded_Element.__dealloc__] *)
Definition Encoded_Element__dealloc__ (self : Encoded_Element) : Py Encoded_Parent unit :=
  native call_gghlite_enc_clear.

(** [Encoded_Element(parent, x=0, level=0)].  [x] reaches flint through
    its decimal representation ([tmp_fmpz] is what [fmpz_set_str]
    stores); [level] is converted to [size_t] at the call that takes
    it, after the encoding has been initialised.  When that conversion
    raises, the element is released: its [__dealloc__] clears the
    encoding.  The flint helpers on [tmp_fmpz] and [tmp_fmpz_poly] are
    plain data conversions and leave no entry in the trace. *)
Definition Encoded_Element__init__ (parent : nat) (x : Z) (level : Z)
    : Py Encoded_Parent Encoded_Element :=
  (* later assert that level is smaller than kappa! *)
  do prnt <~ deref parent ;;
  let self_value := gghlite_enc_init (params prnt) in
  released_on_raise (Encoded_Element__dealloc__ (mkElement parent self_value))
   (run native call_gghlite_enc_init ;;
    let rerand := 0 in
    let tmp_fmpz := x in
    let tmp_fmpz_poly := fmpz_poly_set_coeff_fmpz [] 0 tmp_fmpz in
    do level <~ as_size_t level ;;
    run native (call_gghlite_enc_set_gghlite_clr 1 level rerand) ;;
    let enc := gghlite_enc_set_gghlite_clr (instance prnt) tmp_fmpz_poly 1 level rerand
                 (randstate prnt) in
    run assign parent (set_randstate prnt (snd enc)) ;;
    ret (mkElement parent (fst enc))).

(** [cdef Encoded_Element _new_c(self)] *)
Definition _new_c (self : Encoded_Element) : Py Encoded_Parent Encoded_Element :=
  do prnt <~ deref (_parent self) ;;
  run native call_gghlite_enc_init ;;
  ret (mkElement (_parent self) (gghlite_enc_init (params prnt))).

(** [cpdef ModuleElement _add_(self, ModuleElement right)] *)
Definition _add_ (self right : Encoded_Element) : Py Encoded_Parent Encoded_Element :=
  do ret_ <~ _new_c self ;;
  do prnt <~ deref (_parent self) ;;
  run native call_gghlite_enc_add ;;
  ret (mkElement (_parent ret_) (gghlite_enc_add (params prnt) (value self) (value right))).

(** [cpdef RingElement _mul_(self, RingElement right)] *)
Definition _mul_ (self right : Encoded_Element) : Py Encoded_Parent Encoded_Element :=
  do ret_ <~ _new_c self ;;
  do prnt <~ deref (_parent self) ;;
  run native call_gghlite_enc_mul ;;
  ret (mkElement (_parent ret_) (gghlite_enc_mul (params prnt) (value self) (value right))).

(** [cpdef ModuleElement _sub_(self, ModuleElement right)] *)
Definition _sub_ (self right : Encoded_Element) : Py Encoded_Parent Encoded_Element :=
  do ret_ <~ _new_c self ;;
  do prnt <~ deref (_parent self) ;;
  run native call_gghlite_enc_sub ;;
  ret (mkElement (_parent ret_) (gghlite_enc_sub (params prnt) (value self) (value right))).

(** [def __nonzero__(self)] *)
Definition __nonzero__ (self : Encoded_Element) : Py Encoded_Parent bool :=
  do prnt <~ deref (_parent self) ;;
  run native call_gghlite_enc_is_zero ;;
  ret (negb (gghlite_enc_is_zero (params prnt) (value self))).

(** *** [wrapper/test.sage]

    [Plain.random_element()] is an element of [Integers(Enc.getP())]:
    any integer, reduced.  The draws are the script's input, [draw i]
    the one made for the [i]-th plaintext; what the script prints
    after [Works:] is its result. *)
Definition levels : Z := 5.

Definition IntegerMod (modulus : Z) (x : Z) : Z := x mod modulus.

Definition IntegerMod_mul (modulus : Z) (a b : Z) : Z := (a * b) mod modulus.

Definition test_sage (draw : nat -> Z) : Py Encoded_Parent bool :=
  do Enc <~ Encoded_Parent__init__ QQ levels 20 0 None ;;
  do modulus <~ getP Enc ;;
  let Plain := IntegerMod modulus in
  let mul a b := ret (IntegerMod_mul modulus a b) in
  let plaintext := map (fun i => Plain (draw i)) (seq 0 (Z.to_nat levels)) in
  do result <~ reduce mul plaintext ;;
  do encoding <~ comprehension (fun xl => Encoded_Element__init__ Enc (fst xl) (snd xl))
                   (zip plaintext (range 0 levels)) ;;
  do value1 <~ reduce _mul_ encoding ;;
  do encoded_ones <~ comprehension (fun lvl => Encoded_Element__init__ Enc (Plain 1) lvl)
                       (range 1 levels) ;;
  do enc_result <~ Encoded_Element__init__ Enc result 0 ;;
  do ones <~ reduce _mul_ encoded_ones ;;
  do value2 <~ _mul_ enc_result ones ;;
  do maybe_zero <~ _sub_ value1 value2 ;;
  do nz <~ __nonzero__ maybe_zero ;;
  ret (negb nz).

(** The object [o] of the world [w] is a context around the instance
    [sk]: it holds [sk], its parameters and its modulus. *)
Definition context_at (sk : gghlite_sk_t) (o : nat) (w : World Encoded_Parent) : Prop :=
  exists P, parents w !! o = Some P /\ instance P = sk /\
            params P = gghlite_params_ref sk /\ p P = gghlite_sk_get_p sk.

(** The element [e] belongs to the context [o] and encodes [a] with the
    degrees [v]. *)
Definition encoding_of (encodes : gghlite_enc_t -> Z -> list Z -> Prop) (o : nat)
    (e : Encoded_Element) (a : Z) (v : list Z) : Prop :=
  _parent e = o /\ encodes (value e) a v.

(** The flags [Encoded_Parent.__init__] passes to [gghlite_init]. *)
Definition init_flags : Z :=
  Z.lor (Z.lor (Z.lor GGHLITE_FLAGS_GDDH_HARD GGHLITE_FLAGS_VERBOSE)
               GGHLITE_FLAGS_GOOD_G_INV) GGHLITE_FLAGS_ASYMMETRIC.

(** [wrapper/test.sage] with another value for its constant [levels]:
    the three calls of [range] are the interpreter's, which raise on a
    length past [LONG_MAX]. *)
Definition test_sage_with (levels : Z) (draw : nat -> Z) : Py Encoded_Parent bool :=
  do Enc <~ Encoded_Parent__init__ QQ levels 20 0 None ;;
  do modulus <~ getP Enc ;;
  let Plain := IntegerMod modulus in
  let mul a b := ret (IntegerMod_mul modulus a b) in
  do draws <~ builtin_range 0 levels ;;
  let plaintext := map (fun i => Plain (draw (Z.to_nat i))) draws in
  do result <~ reduce mul plaintext ;;
  do lvls <~ builtin_range 0 levels ;;
  do encoding <~ comprehension (fun xl => Encoded_Element__init__ Enc (fst xl) (snd xl))
                   (zip plaintext lvls) ;;
  do value1 <~ reduce _mul_ encoding ;;
  do lvls1 <~ builtin_range 1 levels ;;
  do encoded_ones <~ comprehension (fun lvl => Encoded_Element__init__ Enc (Plain 1) lvl)
                       lvls1 ;;
  do enc_result <~ Encoded_Element__init__ Enc result 0 ;;
  do ones <~ reduce _mul_ encoded_ones ;;
  do value2 <~ _mul_ enc_result ones ;;
  do maybe_zero <~ _sub_ value1 value2 ;;
  do nz <~ __nonzero__ maybe_zero ;;
  ret (negb nz).

(** The world after the constructor calls [Enc(x, level)] for the
    [(x, level)] of [calls] have been made on the context [o], one after
    the other, each from the world the one before it left, whether that
    one returned or raised. *)
Definition after_constructions (o : nat) (calls : list (Z * Z)) (w : World Encoded_Parent)
    : World Encoded_Parent :=
  fold_left (fun w c => snd (Encoded_Element__init__ o (fst c) (snd c) w)) calls w.

(** Two states of one context that differ in the randomness state at
    most. *)
Definition same_but_randstate (P P' : Encoded_Parent) : Prop :=
  exists r, P' = set_randstate P r.

(** Multiplying an encoding of degrees [u] by encodings of degrees [vs], one
    after the other, never takes a group past degree one. *)
Fixpoint degrees_fit_from (u : list Z) (vs : list (list Z)) : Prop :=
  match vs with
  | [] => True
  | v :: vs' =>
      Forall (fun d => d <= 1) (zip_with Z.add u v) /\
      degrees_fit_from (zip_with Z.add u v) vs'
  end.

(** *** What the scheme promises of the native library

    [encodes f a v]: the native value [f] encodes the plaintext [a]
    (an integer, read modulo [p]) with degree [v !!! i] in group [i].
    For an instance [sk] with [groups] groups: the modulus is a proper
    one; encoding at level [k] in group [i] gives degree [k] there and
    [0] elsewhere; products add degrees, as long as no group exceeds
    degree one; differences and sums keep them; and the zero test never
    misses an encoding of zero that has degree one in every group. *)
Record graded_encoding_scheme (sk : gghlite_sk_t) (groups : nat)
    (encodes : gghlite_enc_t -> Z -> list Z -> Prop) : Prop := {
  scheme_modulus : 1 < gghlite_sk_get_p sk;
  scheme_encode : forall (f : fmpz_poly) (k : Z) (i : nat) (rerand : Z) (r : flint_rand_t),
    (i < groups)%nat ->
    encodes (fst (gghlite_enc_set_gghlite_clr sk f k (Z.of_nat i) rerand r))
            (fmpz_poly_get_coeff f 0) (<[i := k]> (replicate groups 0));
  scheme_mul : forall f g a b u v,
    encodes f a u -> encodes g b v ->
    Forall (fun d => d <= 1) (zip_with Z.add u v) ->
    encodes (gghlite_enc_mul (gghlite_params_ref sk) f g) (a * b) (zip_with Z.add u v);
  scheme_add : forall f g a b v,
    encodes f a v -> encodes g b v ->
    encodes (gghlite_enc_add (gghlite_params_ref sk) f g) (a + b) v;
  scheme_sub : forall f g a b v,
    encodes f a v -> encodes g b v ->
    encodes (gghlite_enc_sub (gghlite_params_ref sk) f g) (a - b) v;
  scheme_is_zero : forall f a,
    encodes f a (replicate groups 1) ->
    a mod gghlite_sk_get_p sk = 0 ->
    gghlite_enc_is_zero (gghlite_params_ref sk) f = true
}.

End Classes.
End Wrapper.

(** ** [unnamed/part_000] over the interface of [wrapper/gghlite.pxd] *)
Module Part000.

(** The functions of [wrapper/gghlite.pxd] the wrapper calls.  An
    allocation that fails ([PyMem_Malloc] returning [NULL]) is outside
    the model. *)
Class GGHLite : Type := {
  flint_rand_t : Type;
  gghlite_t : Type;
  gghlite_pk_t : Type;
  gghlite_enc_t : Type;
  flint_randinit_seed : Z -> Z -> flint_rand_t;
  (* Initialise a new GGHLite instance. *)
  gghlite_init : Z -> Z -> Z -> Z -> flint_rand_t -> gghlite_t * flint_rand_t;
  (* Get a reference to the public parameters of op. *)
  gghlite_pk_ref : gghlite_t -> gghlite_pk_t;
  (* Initialise encoding to zero at level 0. *)
  gghlite_enc_init : gghlite_pk_t -> gghlite_enc_t;
  (* Sample a new random encoding at level k. *)
  gghlite_sample : gghlite_pk_t -> Z -> flint_rand_t -> gghlite_enc_t * flint_rand_t;
  (* Compute h = f*g. *)
  gghlite_mul : gghlite_pk_t -> gghlite_enc_t -> gghlite_enc_t -> gghlite_enc_t;
  gghlite_add : gghlite_pk_t -> gghlite_enc_t -> gghlite_enc_t -> gghlite_enc_t;
  (* Return 1 if op is an encoding of zero at level ? *)
  gghlite_is_zero : gghlite_pk_t -> gghlite_enc_t -> bool
}.

Section Classes.
Context {G : GGHLite}.

Record Encoded_Parent : Type := mkParent {
  base : SageRing;
  category : SageCategory;
  kappa : Z;
  lamb : Z;
  publickey : gghlite_pk_t;
  randstate : flint_rand_t
}.

Record Encoded_Element : Type := mkElement {
  _parent : nat;
  value : gghlite_enc_t
}.

Definition set_randstate (P : Encoded_Parent) (r : flint_rand_t) : Encoded_Parent :=
  mkParent (base P) (category P) (kappa P) (lamb P) (publickey P) r.

(** [Encoded_Parent.__dealloc__]; [__cinit__] has allocated [publickey]
    and [randstate], so that neither is [NULL]. *)
Definition Encoded_Parent__dealloc__ (self : nat) : Py Encoded_Parent unit :=
  run native call_gghlite_pk_clear ;;
  run native call_flint_randclear ;;
  run native call_mpfr_free_cache ;;
  native call_flint_cleanup.

(** [Encoded_Parent(base, kappa, lamb=20, seed=0, category=None)]; the
    GGHLite instance is a local of [__init__].  When a conversion
    raises, the object is released: its [__dealloc__] runs, on a public
    key and a randomness state that were never initialised. *)
Definition Encoded_Parent__init__
    (base : SageRing) (kappa : Z) (lamb : Z) (seed : Z) (category : option SageCategory)
    : Py Encoded_Parent nat :=
  do self <~ new_object ;;
  released_on_raise (Encoded_Parent__dealloc__ self)
   (do seed <~ as_mp_limb_t seed ;;
    let category := match category with Some c => c | None => Rings end in
    do self_kappa <~ as_size_t kappa ;;
    do self_lamb <~ as_size_t lamb ;;
    run native (call_flint_randinit_seed seed 1) ;;
    let randstate := flint_randinit_seed seed 1 in
    (* default for now, see gghlite-defs.h for more options *)
    let flags := 0 in
    (* initialize, get publickey and clear secret parameters *)
    run native (call_gghlite_init self_lamb self_kappa 1 flags) ;;
    let init := gghlite_init self_lamb self_kappa 1 flags randstate in
    let instance := fst init in
    let randstate := snd init in
    run native call_gghlite_pk_ref ;;
    let publickey := gghlite_pk_ref instance in
    run native (call_gghlite_clear 0) ;;
    alloc (mkParent base category self_kappa self_lamb publickey randstate)).

(** [Encoded_Element(parent, x=0)] *)
Definition Encoded_Element__init__ (parent : nat) (x : Z)
    : Py Encoded_Parent Encoded_Element :=
  do prnt <~ deref parent ;;
  run native call_gghlite_enc_init ;;
  let self_value := gghlite_enc_init (publickey prnt) in
  run native (call_gghlite_sample 0) ;;
  let sample := gghlite_sample (publickey prnt) 0 (randstate prnt) in
  run assign parent (set_randstate prnt (snd sample)) ;;
  ret (mkElement parent (fst sample)).

(** [cpdef ModuleElement _add_(self, ModuleElement right)]; the result
    object is built by the constructor, with its default [x]. *)
Definition _add_ (self right : Encoded_Element) : Py Encoded_Parent Encoded_Element :=
  do ret_ <~ Encoded_Element__init__ (_parent self) 0 ;;
  do prnt <~ deref (_parent self) ;;
  run native call_gghlite_add ;;
  ret (mkElement (_parent ret_) (gghlite_add (publickey prnt) (value self) (value right))).

(** [cpdef RingElement _mul_(self, RingElement right)] *)
Definition _mul_ (self right : Encoded_Element) : Py Encoded_Parent Encoded_Element :=
  do ret_ <~ Encoded_Element__init__ (_parent self) 0 ;;
  do prnt <~ deref (_parent self) ;;
  run native call_gghlite_mul ;;
  ret (mkElement (_parent ret_) (gghlite_mul (publickey prnt) (value self) (value right))).

(** [def __nonzero__(self)] *)
Definition __nonzero__ (self : Encoded_Element) : Py Encoded_Parent bool :=
  do prnt <~ deref (_parent self) ;;
  run native call_gghlite_is_zero ;;
  ret (negb (gghlite_is_zero (publickey prnt) (value self))).

End Classes.
End Part000.

(** ** An engine to run the wrappers on

    The native library is a black box to the wrappers.  [Ideal] is an
    engine with the interface of [unnamed/part_001] whose encodings show
    what they encode: the plaintext residue, the degree in each group, and
    the randomness mixed into the representation.  Every encoding is drawn
    with the randomness state the call is handed, which it advances;
    re-randomisation draws once more. *)
Module Ideal.

Record enc : Type := mkEnc { plain : Z; degree : list Z; mask : Z }.

Record sk : Type := mkSk { sk_lamb : Z; sk_kappa : Z; sk_flags : Z; sk_p : Z }.

Record params : Type := mkParams { pp_kappa : Z; pp_p : Z }.

Definition modulus : Z := 1009.

Definition next (r : Z) : Z := (r * 6364136223846793005 + 1442695040888963407) mod 2 ^ 64.

Definition randinit_seed (seed gmp : Z) : Z := seed.

Definition init (lamb kappa rerand_mask flags : Z) (r : Z) : sk * Z :=
  (mkSk lamb kappa flags modulus, next r).

Definition params_ref (s : sk) : params := mkParams (sk_kappa s) (sk_p s).

Definition enc_init (pp : params) : enc :=
  mkEnc 0 (replicate (Z.to_nat (pp_kappa pp)) 0) 0.

Definition set_clr (s : sk) (f : fmpz_poly) (k i rerand : Z) (r : Z) : enc * Z :=
  (mkEnc (fmpz_poly_get_coeff f 0 mod sk_p s)
         (<[Z.to_nat i := k]> (replicate (Z.to_nat (sk_kappa s)) 0))
         (if rerand =? 0 then r else r + next r),
   if rerand =? 0 then next r else next (next r)).

Definition enc_mul (pp : params) (f g : enc) : enc :=
  mkEnc ((plain f * plain g) mod pp_p pp) (zip_with Z.add (degree f) (degree g))
        (mask f + mask g).

Definition enc_add (pp : params) (f g : enc) : enc :=
  mkEnc ((plain f + plain g) mod pp_p pp) (degree f) (mask f + mask g).

Definition enc_sub (pp : params) (f g : enc) : enc :=
  mkEnc ((plain f - plain g) mod pp_p pp) (degree f) (mask f - mask g).

Definition enc_is_zero (pp : params) (f : enc) : bool :=
  forallb (Z.eqb 1) (degree f) && (plain f mod pp_p pp =? 0).

#[export] Instance engine : Wrapper.GGHLite := {|
  Wrapper.flint_rand_t := Z;
  Wrapper.gghlite_sk_t := sk;
  Wrapper.gghlite_params_t := params;
  Wrapper.gghlite_enc_t := enc;
  Wrapper.GGHLITE_FLAGS_DEFAULT := 0;
  Wrapper.GGHLITE_FLAGS_PRIME_G := 1;
  Wrapper.GGHLITE_FLAGS_VERBOSE := 2;
  Wrapper.GGHLITE_FLAGS_GDDH_HARD := 4;
  Wrapper.GGHLITE_FLAGS_ASYMMETRIC := 8;
  Wrapper.GGHLITE_FLAGS_QUIET := 16;
  Wrapper.GGHLITE_FLAGS_GOOD_G_INV := 32;
  Wrapper.flint_randinit_seed := randinit_seed;
  Wrapper.gghlite_init := init;
  Wrapper.gghlite_sk_get_p := sk_p;
  Wrapper.gghlite_params_ref := params_ref;
  Wrapper.gghlite_enc_init := enc_init;
  Wrapper.gghlite_enc_set_gghlite_clr := set_clr;
  Wrapper.gghlite_enc_mul := enc_mul;
  Wrapper.gghlite_enc_add := enc_add;
  Wrapper.gghlite_enc_sub := enc_sub;
  Wrapper.gghlite_enc_is_zero := enc_is_zero
|}.

(** What an encoding of the ideal engine encodes. *)
Definition encodes (s : sk) (f : enc) (a : Z) (v : list Z) : Prop :=
  plain f = a mod sk_p s /\ degree f = v.

(** The same engine behind the older interface of [wrapper/gghlite.pxd]:
    one group, and [sample] draws the plaintext from the randomness
    state. *)
Definition sample (pp : params) (k : Z) (r : Z) : enc * Z :=
  (mkEnc (r mod pp_p pp) [k] r, next r).

#[export] Instance engine000 : Part000.GGHLite := {|
  Part000.flint_rand_t := Z;
  Part000.gghlite_t := sk;
  Part000.gghlite_pk_t := params;
  Part000.gghlite_enc_t := enc;
  Part000.flint_randinit_seed := randinit_seed;
  Part000.gghlite_init := init;
  Part000.gghlite_pk_ref := params_ref;
  Part000.gghlite_enc_init := enc_init;
  Part000.gghlite_sample := sample;
  Part000.gghlite_mul := enc_mul;
  Part000.gghlite_add := enc_add;
  Part000.gghlite_is_zero := enc_is_zero
|}.

(** A context of the ideal engine with five groups, as
    [Encoded_Parent(QQ, 5)] leaves it, alone in the heap; and two
    encodings of it. *)
Definition parent5 : Wrapper.Encoded_Parent :=
  Wrapper.mkParent QQ Rings 5 20 modulus (mkParams 5 modulus) (next 0) (mkSk 20 5 46 modulus).

Definition world5 : World Wrapper.Encoded_Parent := mkWorld [parent5] [].

Definition two_in_group0 : Wrapper.Encoded_Element :=
  Wrapper.mkElement 0 (mkEnc 2 [1; 0; 0; 0; 0] 0).

Definition three_in_group1 : Wrapper.Encoded_Element :=
  Wrapper.mkElement 0 (mkEnc 3 [0; 1; 0; 0; 0] 0).

(** Contexts of the ideal engine with one, two and three groups, and
    encodings in the one with two. *)
Definition sk_of (groups : Z) : sk := mkSk 20 groups 46 modulus.

Definition parent_of (groups : Z) : Wrapper.Encoded_Parent :=
  Wrapper.mkParent QQ Rings groups 20 modulus (mkParams groups modulus) (next 0) (sk_of groups).

Definition world_of (groups : Z) : World Wrapper.Encoded_Parent := mkWorld [parent_of groups] [].

Definition in_group0_of_two (a : Z) : Wrapper.Encoded_Element :=
  Wrapper.mkElement 0 (mkEnc a [1; 0] 0).

Definition in_group1_of_two (a : Z) : Wrapper.Encoded_Element :=
  Wrapper.mkElement 0 (mkEnc a [0; 1] 0).

(** The same for the older wrapper. *)
Definition parent000 : Part000.Encoded_Parent :=
  Part000.mkParent QQ Rings 5 20 (mkParams 5 modulus) (next 0).

Definition world000 : World Part000.Encoded_Parent := mkWorld [parent000] [].

Definition sampled000 : Part000.Encoded_Element :=
  Part000.mkElement 0 (mkEnc 3 [0] 3).

End Ideal.

(** * Facts *)

(** ** The monad *)
Section PyFacts.
Context {Heap : Type}.
Implicit Types w : World Heap.

Lemma returns_ret {A} (a : A) w (Q : A -> World Heap -> Prop) :
  Q a w -> returns (ret a) w Q.
Proof. intros HQ. exists a, w. split; [reflexivity | exact HQ]. Qed.

Lemma returns_bind {A B} (m : Py Heap A) (k : A -> Py Heap B) w
    (Q : B -> World Heap -> Prop) :
  returns m w (fun a w' => returns (k a) w' Q) -> returns (bind m k) w Q.
Proof.
  intros (a & w' & Hm & b & w'' & Hk & HQ).
  exists b, w''. unfold bind. rewrite Hm. split; assumption.
Qed.

Lemma returns_weaken {A} (m : Py Heap A) w (Q Q' : A -> World Heap -> Prop) :
  returns m w Q -> (forall a w', Q a w' -> Q' a w') -> returns m w Q'.
Proof. intros (a & w' & Hm & HQ) HQQ'. exists a, w'. split; [exact Hm | apply HQQ', HQ]. Qed.

Lemma bind_returned {A B} (m : Py Heap A) (k : A -> Py Heap B) w a w' :
  m w = (inr a, w') -> bind m k w = k a w'.
Proof. intros Hm. unfold bind. rewrite Hm. reflexivity. Qed.

Lemma bind_raised {A B} (m : Py Heap A) (k : A -> Py Heap B) w e w' :
  m w = (inl e, w') -> bind m k w = (inl e, w').
Proof. intros Hm. unfold bind. rewrite Hm. reflexivity. Qed.

Lemma released_returned {A} (dealloc : Py Heap unit) (init : Py Heap A) w a w' :
  init w = (inr a, w') -> released_on_raise dealloc init w = (inr a, w').
Proof. intros Hm. unfold released_on_raise. rewrite Hm. reflexivity. Qed.

Lemma released_raised {A} (dealloc : Py Heap unit) (init : Py Heap A) w e w' :
  init w = (inl e, w') -> released_on_raise dealloc init w = (inl e, snd (dealloc w')).
Proof. intros Hm. unfold released_on_raise. rewrite Hm. reflexivity. Qed.

Lemma new_object_returned w : new_object w = (inr (length (parents w)), w).
Proof. reflexivity. Qed.



Lemma deref_returned w o (P : Heap) :
  parents w !! o = Some P -> deref o w = (inr P, w).
Proof. intros H. unfold deref. rewrite H. reflexivity. Qed.

Lemma as_unsigned_returned (n : Z) w :
  0 <= n <= SIZE_MAX -> as_unsigned n w = (inr n, w).
Proof.
  intros [Hlo Hhi]. unfold as_unsigned.
  apply Z.leb_le in Hlo. apply Z.leb_le in Hhi. rewrite Hlo, Hhi. reflexivity.
Qed.

Lemma as_unsigned_raised (n : Z) w :
  n < 0 \/ SIZE_MAX < n -> as_unsigned n w = (inl OverflowError, w).
Proof.
  intros H. unfold as_unsigned.
  destruct (0 <=? n) eqn:Hlo; [| reflexivity].
  destruct (n <=? SIZE_MAX) eqn:Hhi; [| reflexivity].
  apply Z.leb_le in Hlo. apply Z.leb_le in Hhi. lia.
Qed.

(** A conversion raises or returns its argument, and never touches the
    world. *)
Lemma as_unsigned_cases (n : Z) w :
  (0 <= n <= SIZE_MAX /\ as_unsigned n w = (inr n, w)) \/
  ((n < 0 \/ SIZE_MAX < n) /\ as_unsigned n w = (inl OverflowError, w)).
Proof.
  destruct (Z_lt_ge_dec n 0) as [Hneg | Hpos].
  - right. split; [lia |]. apply as_unsigned_raised. lia.
  - destruct (Z_le_gt_dec n SIZE_MAX) as [Hfit | Hbig].
    + left. split; [lia |]. apply as_unsigned_returned. lia.
    + right. split; [lia |]. apply as_unsigned_raised. lia.
Qed.
End PyFacts.

(** ** What a call leaves in the trace *)
Section Footprint.
Context {Heap : Type}.
Variable bad : native_call -> Prop.
Implicit Types w : World Heap.

Lemma never_calls_ret {A} (a : A) : never_calls (Heap := Heap) bad (ret a).
Proof. intros w. exists []. split; [by rewrite app_nil_r | constructor]. Qed.

Lemma never_calls_raise {A} (e : PyExn) : never_calls (Heap := Heap) bad (raise (A := A) e).
Proof. intros w. exists []. split; [by rewrite app_nil_r | constructor]. Qed.

Lemma never_calls_bind {A B} (m : Py Heap A) (k : A -> Py Heap B) :
  never_calls bad m -> (forall a, never_calls bad (k a)) -> never_calls bad (bind m k).
Proof.
  intros Hm Hk w. destruct (Hm w) as (t & Ht & Hbad). unfold bind.
  destruct (m w) as [[e | a] w'] eqn:E; cbn [snd] in *.
  - exists t. auto.
  - destruct (Hk a w') as (t' & Ht' & Hbad'). exists (t ++ t').
    split; [by rewrite Ht', Ht, app_assoc | by apply Forall_app].
Qed.

Lemma never_calls_native (c : native_call) : ~ bad c -> never_calls (Heap := Heap) bad (native c).
Proof. intros Hc w. exists [c]. split; [reflexivity | by repeat constructor]. Qed.

Lemma never_calls_deref (o : nat) : never_calls (Heap := Heap) bad (deref o).
Proof.
  intros w. exists []. unfold deref.
  destruct (parents w !! o); (split; [by rewrite app_nil_r | constructor]).
Qed.

Lemma never_calls_assign (o : nat) (P : Heap) : never_calls bad (assign o P).
Proof. intros w. exists []. split; [cbn; by rewrite app_nil_r | constructor]. Qed.

Lemma never_calls_alloc (P : Heap) : never_calls bad (alloc P).
Proof. intros w. exists []. split; [cbn; by rewrite app_nil_r | constructor]. Qed.

Lemma never_calls_new_object : never_calls (Heap := Heap) bad new_object.
Proof. intros w. exists []. split; [cbn; by rewrite app_nil_r | constructor]. Qed.

Lemma never_calls_released_on_raise {A} (dealloc : Py Heap unit) (init : Py Heap A) :
  never_calls bad dealloc -> never_calls bad init ->
  never_calls bad (released_on_raise dealloc init).
Proof.
  intros Hd Hm w. destruct (Hm w) as (t & Ht & Hbad). unfold released_on_raise.
  destruct (init w) as [[e | a] w'] eqn:E; cbn [snd] in *.
  - destruct (Hd w') as (t' & Ht' & Hbad'). exists (t ++ t').
    split; [by rewrite Ht', Ht, app_assoc | by apply Forall_app].
  - exists t. auto.
Qed.

Lemma never_calls_builtin_range (lo hi : Z) :
  never_calls (Heap := Heap) bad (builtin_range lo hi).
Proof.
  unfold builtin_range. destruct (hi - lo <=? LONG_MAX);
    [apply never_calls_ret | apply never_calls_raise].
Qed.

Lemma never_calls_as_unsigned (n : Z) : never_calls (Heap := Heap) bad (as_unsigned n).
Proof.
  unfold as_unsigned. destruct ((0 <=? n) && (n <=? SIZE_MAX));
    [apply never_calls_ret | apply never_calls_raise].
Qed.

Lemma never_calls_reduce_from {A} (f : A -> A -> Py Heap A) (xs : list A) :
  (forall a b, never_calls bad (f a b)) -> forall acc, never_calls bad (reduce_from f acc xs).
Proof.
  intros Hf. induction xs as [| x xs IH]; intros acc; cbn [reduce_from].
  - apply never_calls_ret.
  - apply never_calls_bind; [apply Hf | intros acc'; apply IH].
Qed.

Lemma never_calls_reduce {A} (f : A -> A -> Py Heap A) (xs : list A) :
  (forall a b, never_calls bad (f a b)) -> never_calls bad (reduce f xs).
Proof.
  intros Hf. destruct xs as [| x xs]; cbn [reduce].
  - apply never_calls_raise.
  - by apply never_calls_reduce_from.
Qed.

Lemma never_calls_comprehension {A B} (f : A -> Py Heap B) (xs : list A) :
  (forall a, never_calls bad (f a)) -> never_calls bad (comprehension f xs).
Proof.
  intros Hf. induction xs as [| x xs IH]; cbn [comprehension].
  - apply never_calls_ret.
  - apply never_calls_bind; [apply Hf | intros y].
    apply never_calls_bind; [apply IH | intros ys; apply never_calls_ret].
Qed.

Lemma deref_missing w o : parents w !! o = None -> deref o w = (inl BadObject, w).
Proof. intros H. unfold deref. rewrite H. reflexivity. Qed.

End Footprint.

Create HintDb footprint.
#[export] Hint Resolve never_calls_ret never_calls_raise never_calls_deref never_calls_assign
  never_calls_alloc never_calls_as_unsigned never_calls_new_object
  never_calls_builtin_range : footprint.

(** Walk through a definition built from [bind] and the primitive calls. *)
Ltac footprint :=
  repeat first
    [ apply never_calls_bind; [| intros ?]
    | apply never_calls_released_on_raise
    | apply never_calls_native; cbn; tauto
    | apply never_calls_reduce; intros ? ?
    | apply never_calls_comprehension; intros ?
    | solve [auto with footprint] ].


Lemma zip_with_add_comm (u v : list Z) : zip_with Z.add u v = zip_with Z.add v u.
Proof.
  revert v. induction u as [| a u IH]; intros [| b v]; cbn; try reflexivity.
  by rewrite IH, Z.add_comm.
Qed.







(** Step over a call whose return is known. *)
Tactic Notation "py_returned" open_constr(H) :=
  rewrite (bind_returned _ _ _ _ _ H); cbv beta.
Tactic Notation "py_raised" open_constr(H) :=
  rewrite (bind_raised _ _ _ _ _ H); cbv beta.

(** Descend to the next call of a script, and discharge it by its
    specification. *)
Ltac py_open :=
  repeat (cbv beta; cbn [reduce reduce_from];
          match goal with
          | |- returns (bind _ _) _ _ => apply returns_bind
          | |- returns (ret _) _ _ => apply returns_ret
          end).
Tactic Notation "py_call" open_constr(spec) :=
  eapply returns_weaken; [eapply spec | cbv beta].

(** ** [wrapper/wrapper.pyx] *)
Module WrapperFacts.
Import Wrapper.

Section Calls.
Context {G : GGHLite}.
Implicit Types (w : World Encoded_Parent) (P : Encoded_Parent).

Lemma fmpz_poly_constant (x : Z) :
  fmpz_poly_get_coeff (fmpz_poly_set_coeff_fmpz [] 0 x) 0 = x.
Proof.
  unfold fmpz_poly_set_coeff_fmpz, fmpz_poly_get_coeff. cbn.
  destruct (x =? 0) eqn:Hx; cbn; [| reflexivity].
  apply Z.eqb_eq in Hx. congruence.
Qed.

(** *** What each call returns, given the parent it dereferences *)

Lemma Encoded_Parent__init__returned base0 kappa0 lamb0 seed0 category0 w :
  0 <= kappa0 <= SIZE_MAX -> 0 <= lamb0 <= SIZE_MAX -> 0 <= seed0 <= SIZE_MAX ->
  let init := gghlite_init lamb0 kappa0 1 init_flags (flint_randinit_seed seed0 1) in
  Encoded_Parent__init__ base0 kappa0 lamb0 seed0 category0 w =
    (inr (length (parents w)),
     mkWorld (parents w ++
                [mkParent base0 (match category0 with Some c => c | None => Rings end)
                   kappa0 lamb0 (gghlite_sk_get_p (fst init))
                   (gghlite_params_ref (fst init)) (snd init) (fst init)])
             (trace w ++ [call_flint_randinit_seed seed0 1;
                          call_gghlite_init lamb0 kappa0 1 init_flags;
                          call_gghlite_params_ref; call_gghlite_sk_get_p])).
Proof.
  intros Hk Hl Hs init. unfold Encoded_Parent__init__, as_mp_limb_t, as_size_t.
  py_returned (new_object_returned w). apply released_returned.
  py_returned (as_unsigned_returned seed0 w Hs).
  py_returned (as_unsigned_returned kappa0 w Hk).
  py_returned (as_unsigned_returned lamb0 w Hl).
  unfold bind, native, alloc; cbn. rewrite <- !app_assoc. reflexivity.
Qed.

Lemma Encoded_Element__init__returned parent x level w P :
  parents w !! parent = Some P -> 0 <= level <= SIZE_MAX ->
  let enc := gghlite_enc_set_gghlite_clr (instance P) (fmpz_poly_set_coeff_fmpz [] 0 x)
               1 level 0 (randstate P) in
  Encoded_Element__init__ parent x level w =
    (inr (mkElement parent (fst enc)),
     mkWorld (<[parent := set_randstate P (snd enc)]> (parents w))
             (trace w ++ [call_gghlite_enc_init; call_gghlite_enc_set_gghlite_clr 1 level 0])).
Proof.
  intros HP Hlevel enc. unfold Encoded_Element__init__, as_size_t.
  py_returned (deref_returned w parent P HP). apply released_returned.
  unfold bind at 1. unfold native at 1. cbn.
  py_returned (as_unsigned_returned level _ Hlevel).
  unfold bind, native, assign, ret; cbn. rewrite <- !app_assoc. reflexivity.
Qed.

Lemma _new_c_returned self w P :
  parents w !! _parent self = Some P ->
  _new_c self w =
    (inr (mkElement (_parent self) (gghlite_enc_init (params P))),
     mkWorld (parents w) (trace w ++ [call_gghlite_enc_init])).
Proof.
  intros HP. unfold _new_c.
  py_returned (deref_returned w _ P HP). reflexivity.
Qed.

Lemma _add__returned self right w P :
  parents w !! _parent self = Some P ->
  _add_ self right w =
    (inr (mkElement (_parent self) (gghlite_enc_add (params P) (value self) (value right))),
     mkWorld (parents w) (trace w ++ [call_gghlite_enc_init; call_gghlite_enc_add])).
Proof.
  intros HP. unfold _add_.
  py_returned (_new_c_returned self w P HP).
  py_returned (deref_returned (mkWorld (parents w) _) _ P HP).
  unfold bind, native, ret; cbn. rewrite <- !app_assoc. reflexivity.
Qed.

Lemma _mul__returned self right w P :
  parents w !! _parent self = Some P ->
  _mul_ self right w =
    (inr (mkElement (_parent self) (gghlite_enc_mul (params P) (value self) (value right))),
     mkWorld (parents w) (trace w ++ [call_gghlite_enc_init; call_gghlite_enc_mul])).
Proof.
  intros HP. unfold _mul_.
  py_returned (_new_c_returned self w P HP).
  py_returned (deref_returned (mkWorld (parents w) _) _ P HP).
  unfold bind, native, ret; cbn. rewrite <- !app_assoc. reflexivity.
Qed.

Lemma _sub__returned self right w P :
  parents w !! _parent self = Some P ->
  _sub_ self right w =
    (inr (mkElement (_parent self) (gghlite_enc_sub (params P) (value self) (value right))),
     mkWorld (parents w) (trace w ++ [call_gghlite_enc_init; call_gghlite_enc_sub])).
Proof.
  intros HP. unfold _sub_.
  py_returned (_new_c_returned self w P HP).
  py_returned (deref_returned (mkWorld (parents w) _) _ P HP).
  unfold bind, native, ret; cbn. rewrite <- !app_assoc. reflexivity.
Qed.

Lemma __nonzero__returned self w P :
  parents w !! _parent self = Some P ->
  __nonzero__ self w =
    (inr (negb (gghlite_enc_is_zero (params P) (value self))),
     mkWorld (parents w) (trace w ++ [call_gghlite_enc_is_zero])).
Proof.
  intros HP. unfold __nonzero__.
  py_returned (deref_returned w _ P HP). reflexivity.
Qed.

(** *** When the conversions raise *)

Lemma Encoded_Parent__init__raised base0 kappa0 lamb0 seed0 category0 w :
  ~ (0 <= seed0 <= SIZE_MAX /\ 0 <= kappa0 <= SIZE_MAX /\ 0 <= lamb0 <= SIZE_MAX) ->
  Encoded_Parent__init__ base0 kappa0 lamb0 seed0 category0 w =
    (inl OverflowError,
     mkWorld (parents w)
             (trace w ++ [call_gghlite_params_clear; call_flint_randclear;
                          call_mpfr_free_cache; call_flint_cleanup])).
Proof.
  intros Hbad. unfold Encoded_Parent__init__, as_mp_limb_t, as_size_t.
  py_returned (new_object_returned w).
  erewrite released_raised with (w' := w);
    [unfold Encoded_Parent__dealloc__, bind, native; cbn; by rewrite <- !app_assoc |].
  destruct (as_unsigned_cases seed0 w) as [[Hs Es] | [_ Es]]; [| by py_raised Es].
  py_returned Es.
  destruct (as_unsigned_cases kappa0 w) as [[Hk Ek] | [_ Ek]]; [| by py_raised Ek].
  py_returned Ek.
  destruct (as_unsigned_cases lamb0 w) as [[Hl El] | [_ El]]; [| by py_raised El].
  tauto.
Qed.

Lemma Encoded_Element__init__raised parent x level w P :
  parents w !! parent = Some P -> level < 0 \/ SIZE_MAX < level ->
  Encoded_Element__init__ parent x level w =
    (inl OverflowError,
     mkWorld (parents w) (trace w ++ [call_gghlite_enc_init; call_gghlite_enc_clear])).
Proof.
  intros HP Hlevel. unfold Encoded_Element__init__, as_size_t.
  py_returned (deref_returned w parent P HP).
  erewrite released_raised with (w' := mkWorld (parents w) (trace w ++ [call_gghlite_enc_init]));
    [unfold Encoded_Element__dealloc__, native; cbn; by rewrite <- app_assoc |].
  unfold bind at 1. unfold native at 1. cbn.
  by py_raised (as_unsigned_raised level _ Hlevel).
Qed.

End Calls.

(** *** The calls on a context whose instance keeps the scheme's promises *)
Section Scheme.
Context {G : GGHLite}.
Variables (sk : gghlite_sk_t) (groups : nat).
Variable encodes : gghlite_enc_t -> Z -> list Z -> Prop.
Hypothesis scheme : graded_encoding_scheme sk groups encodes.
Variable o : nat.
Implicit Types (w : World Encoded_Parent) (e : Encoded_Element).

Lemma getP_spec w :
  context_at sk o w ->
  returns (getP o) w (fun m w' => m = gghlite_sk_get_p sk /\ w' = w).
Proof.
  intros (P & HP & _ & _ & Hp). exists (p P), w. split; [| by rewrite Hp].
  unfold getP. py_returned (deref_returned w o P HP). reflexivity.
Qed.

Lemma Encoded_Element__init__spec w x level :
  context_at sk o w -> 0 <= level < Z.of_nat groups -> level <= SIZE_MAX ->
  returns (Encoded_Element__init__ o x level) w
    (fun e w' => context_at sk o w' /\
                 encoding_of encodes o e x (<[Z.to_nat level := 1]> (replicate groups 0))).
Proof.
  intros (P & HP & Hsk & Hpp & Hp) Hlevel Hfit.
  eexists _, _. split.
  { apply (Encoded_Element__init__returned o x level w P HP). lia. }
  split.
  - eexists. split.
    + apply list_lookup_insert_eq. eapply lookup_lt_Some, HP.
    + unfold set_randstate. cbn [instance params p]. auto.
  - split; [reflexivity |]. cbn [value]. rewrite Hsk.
    pose proof (scheme_encode _ _ _ scheme (fmpz_poly_set_coeff_fmpz [] 0 x) 1
                  (Z.to_nat level) 0 (randstate P)) as Henc.
    rewrite fmpz_poly_constant, Z2Nat.id in Henc by lia.
    apply Henc. lia.
Qed.

Lemma _mul__spec w e1 e2 a b u v :
  context_at sk o w -> encoding_of encodes o e1 a u -> encoding_of encodes o e2 b v ->
  Forall (fun d => d <= 1) (zip_with Z.add u v) ->
  returns (_mul_ e1 e2) w
    (fun e w' => context_at sk o w' /\ encoding_of encodes o e (a * b) (zip_with Z.add u v)).
Proof.
  intros (P & HP & Hsk & Hpp & Hp) [Ho1 He1] [Ho2 He2] Hdeg.
  rewrite <- Ho1 in HP. eexists _, _. split; [apply (_mul__returned e1 e2 w P HP) |].
  split.
  - exists P. rewrite <- Ho1. auto.
  - split; [exact Ho1 |]. cbn. rewrite Hpp. by apply (scheme_mul _ _ _ scheme).
Qed.

Lemma _sub__spec w e1 e2 a b v :
  context_at sk o w -> encoding_of encodes o e1 a v -> encoding_of encodes o e2 b v ->
  returns (_sub_ e1 e2) w
    (fun e w' => context_at sk o w' /\ encoding_of encodes o e (a - b) v).
Proof.
  intros (P & HP & Hsk & Hpp & Hp) [Ho1 He1] [Ho2 He2].
  rewrite <- Ho1 in HP. eexists _, _. split; [apply (_sub__returned e1 e2 w P HP) |].
  split.
  - exists P. rewrite <- Ho1. auto.
  - split; [exact Ho1 |]. cbn. rewrite Hpp. by apply (scheme_sub _ _ _ scheme).
Qed.

Lemma __nonzero__spec w e a :
  context_at sk o w -> encoding_of encodes o e a (replicate groups 1) ->
  a mod gghlite_sk_get_p sk = 0 ->
  returns (__nonzero__ e) w (fun nz w' => nz = false).
Proof.
  intros (P & HP & Hsk & Hpp & Hp) [Ho He] Hzero.
  rewrite <- Ho in HP. eexists _, _. split; [apply (__nonzero__returned e w P HP) |].
  rewrite Hpp. apply negb_false_iff. by apply (scheme_is_zero _ _ _ scheme _ a).
Qed.

End Scheme.

(** The plaintext [test.sage] compares: the product of the five residues
    against their product taken in [Integers(p)], times four ones. *)
Lemma product_residue (m x0 x1 x2 x3 x4 : Z) :
  1 < m ->
  (x0 * x1 * x2 * x3 * x4
   - IntegerMod_mul m (IntegerMod_mul m (IntegerMod_mul m (IntegerMod_mul m x0 x1) x2) x3) x4
     * (IntegerMod m 1 * IntegerMod m 1 * IntegerMod m 1 * IntegerMod m 1)) mod m = 0.
Proof.
  intros Hm. unfold IntegerMod_mul, IntegerMod.
  rewrite (Z.mod_small 1 m) by lia. rewrite !Z.mul_1_r.
  repeat (rewrite <- ?Z.mul_assoc; rewrite Zmult_mod_idemp_l).
  rewrite <- !Z.mul_assoc.
  rewrite Zminus_mod, Z.mod_mod by lia.
  rewrite Z.sub_diag. apply Z.mod_0_l. lia.
Qed.

Ltac norm_degrees H :=
  match type of H with
  | encoding_of _ _ _ _ ?v => let v' := eval vm_compute in v in change v with v' in H
  end.

Ltac degrees_fit :=
  cbn [zip_with]; repeat (apply List.Forall_cons; [lia |]); apply List.Forall_nil.

(** *** The constructor: what it changes in the heap *)
Section Heap.
Context {G : GGHLite}.
Implicit Types (w : World Encoded_Parent) (P : Encoded_Parent).

Lemma getP_returned o w P : parents w !! o = Some P -> getP o w = (inr (p P), w).
Proof. intros HP. unfold getP. by py_returned (deref_returned w o P HP). Qed.

Lemma Encoded_Element__init__missing parent x level w :
  parents w !! parent = None ->
  Encoded_Element__init__ parent x level w = (inl BadObject, w).
Proof.
  intros HP. unfold Encoded_Element__init__.
  by py_raised (deref_missing w parent HP).
Qed.

Lemma set_randstate_same P : set_randstate P (randstate P) = P.
Proof. by destruct P. Qed.

Lemma same_but_randstate_refl P : same_but_randstate P P.
Proof. exists (randstate P). by rewrite set_randstate_same. Qed.

Lemma same_but_randstate_trans P P' P'' :
  same_but_randstate P P' -> same_but_randstate P' P'' -> same_but_randstate P P''.
Proof. intros [r ->] [r' ->]. by exists r'. Qed.

Lemma same_but_randstate_fields P P' :
  same_but_randstate P P' ->
  base P' = base P /\ category P' = category P /\ kappa P' = kappa P /\ lamb P' = lamb P /\
  p P' = p P /\ params P' = params P /\ instance P' = instance P.
Proof. intros [r ->]. cbn. auto 10. Qed.

Lemma Encoded_Element__init__frame parent x level w :
  let w' := snd (Encoded_Element__init__ parent x level w) in
  length (parents w') = length (parents w) /\
  (forall o, o <> parent -> parents w' !! o = parents w !! o) /\
  (forall P, parents w !! parent = Some P ->
             exists P', parents w' !! parent = Some P' /\ same_but_randstate P P').
Proof.
  intros w'. subst w'.
  destruct (parents w !! parent) as [P |] eqn:HP.
  - destruct (Z_lt_ge_dec level 0) as [Hneg | Hpos];
      [| destruct (Z_le_gt_dec level SIZE_MAX) as [Hfit | Hbig]].
    + rewrite (Encoded_Element__init__raised parent x level w P HP (or_introl Hneg)).
      cbn [snd parents]. split; [reflexivity |]. split; [reflexivity |].
      intros P0 [= <-]. exists P. split; [exact HP | apply same_but_randstate_refl].
    + rewrite (Encoded_Element__init__returned parent x level w P HP
                 (conj (Z.ge_le _ _ Hpos) Hfit)).
      cbn [snd parents]. split; [apply length_insert |]. split.
      * intros o Ho. by apply list_lookup_insert_ne.
      * intros P0 [= <-]. eexists. split.
        -- apply list_lookup_insert_eq. eapply lookup_lt_Some, HP.
        -- eexists. reflexivity.
    + rewrite (Encoded_Element__init__raised parent x level w P HP
                 (or_intror (Z.gt_lt _ _ Hbig))).
      cbn [snd parents]. split; [reflexivity |]. split; [reflexivity |].
      intros P0 [= <-]. exists P. split; [exact HP | apply same_but_randstate_refl].
  - rewrite (Encoded_Element__init__missing parent x level w HP).
    cbn [snd]. split; [reflexivity |]. split; [reflexivity |]. intros P0 [=].
Qed.

(** The outcome of the constructor does not depend on the trace. *)
Lemma Encoded_Element__init__outcome parent x level (ps : list Encoded_Parent)
    (t t' : list native_call) :
  fst (Encoded_Element__init__ parent x level (mkWorld ps t)) =
  fst (Encoded_Element__init__ parent x level (mkWorld ps t')).
Proof.
  destruct (ps !! parent) as [P |] eqn:HP.
  - destruct (Z_lt_ge_dec level 0) as [Hneg | Hpos];
      [| destruct (Z_le_gt_dec level SIZE_MAX) as [Hfit | Hbig]].
    + by rewrite !(Encoded_Element__init__raised parent x level (mkWorld ps _) P HP
                     (or_introl Hneg)).
    + by rewrite !(Encoded_Element__init__returned parent x level (mkWorld ps _) P HP
                     (conj (Z.ge_le _ _ Hpos) Hfit)).
    + by rewrite !(Encoded_Element__init__raised parent x level (mkWorld ps _) P HP
                     (or_intror (Z.gt_lt _ _ Hbig))).
  - by rewrite !(Encoded_Element__init__missing parent x level (mkWorld ps _) HP).
Qed.


(** Constructor calls on one context, whether they return or raise, leave
    the context in the heap, changed in its randomness state at most. *)
Lemma constructions_keep_context (calls : list (Z * Z)) :
  forall o w P,
    parents w !! o = Some P ->
    exists P', parents (after_constructions o calls w) !! o = Some P' /\
               same_but_randstate P P'.
Proof.
  induction calls as [| [x level] calls IH]; intros o w P HP.
  { exists P. split; [exact HP | apply same_but_randstate_refl]. }
  unfold after_constructions. cbn [fold_left fst snd].
  destruct (Encoded_Element__init__frame o x level w) as (_ & _ & Hown).
  destruct (Hown P HP) as (P1 & HP1 & Hsame1).
  destruct (IH o _ P1 HP1) as (P2 & HP2 & Hsame2).
  exists P2. split; [exact HP2 | by eapply same_but_randstate_trans].
Qed.
End Heap.


Section SchemeLists.
Context {G : GGHLite}.
Variables (sk : gghlite_sk_t) (groups : nat).
Variable encodes : gghlite_enc_t -> Z -> list Z -> Prop.
Hypothesis scheme : graded_encoding_scheme sk groups encodes.
Variable o : nat.
Implicit Types (w : World Encoded_Parent) (e : Encoded_Element).

Lemma _add__spec w e1 e2 a b v :
  context_at sk o w -> encoding_of encodes o e1 a v -> encoding_of encodes o e2 b v ->
  returns (_add_ e1 e2) w
    (fun e w' => context_at sk o w' /\ encoding_of encodes o e (a + b) v).
Proof.
  intros (P & HP & Hsk & Hpp & Hp) [Ho1 He1] [Ho2 He2].
  rewrite <- Ho1 in HP. eexists _, _. split; [apply (_add__returned e1 e2 w P HP) |].
  split.
  - exists P. rewrite <- Ho1. auto.
  - split; [exact Ho1 |]. cbn. rewrite Hpp. by apply (scheme_add _ _ _ scheme).
Qed.

Lemma top_fits (u v : list Z) :
  zip_with Z.add u v = replicate groups 1 -> Forall (fun d => d <= 1) (zip_with Z.add u v).
Proof. intros ->. apply Forall_replicate. lia. Qed.


Lemma reduce_from_mul_spec {A} (xf : A -> Z) (vf : A -> list Z) (es : list Encoded_Element)
    (items : list A) :
  Forall2 (fun e a => encoding_of encodes o e (xf a) (vf a)) es items ->
  forall w e a u,
    context_at sk o w -> encoding_of encodes o e a u ->
    degrees_fit_from u (map vf items) ->
    returns (reduce_from _mul_ e es) w
      (fun r w' =>
         context_at sk o w' /\
         encoding_of encodes o r (fold_left Z.mul (map xf items) a)
           (fold_left (zip_with Z.add) (map vf items) u)).
Proof.
  induction 1 as [| e1 a1 es items He1 Hes IH]; intros w e a u Hctx He Hfit;
    cbn [reduce_from map fold_left].
  - by apply returns_ret.
  - destruct Hfit as [Hstep Hfit].
    apply returns_bind.
    py_call (_mul__spec sk groups encodes scheme o w e e1);
      [exact Hctx | exact He | exact He1 | exact Hstep |].
    intros e' w1 [Hctx1 He']. by apply IH.
Qed.
End SchemeLists.

End WrapperFacts.

(** ** [unnamed/part_000] *)
Module Part000Facts.
Import Part000.

Section Calls.
Context {G : GGHLite}.
Implicit Types (w : World Encoded_Parent) (P : Encoded_Parent).

Lemma Encoded_Parent__init__returned_000 base0 kappa0 lamb0 seed0 category0 w :
  0 <= kappa0 <= SIZE_MAX -> 0 <= lamb0 <= SIZE_MAX -> 0 <= seed0 <= SIZE_MAX ->
  let init := gghlite_init lamb0 kappa0 1 0 (flint_randinit_seed seed0 1) in
  Encoded_Parent__init__ base0 kappa0 lamb0 seed0 category0 w =
    (inr (length (parents w)),
     mkWorld (parents w ++
                [mkParent base0 (match category0 with Some c => c | None => Rings end)
                   kappa0 lamb0 (gghlite_pk_ref (fst init)) (snd init)])
             (trace w ++ [call_flint_randinit_seed seed0 1;
                          call_gghlite_init lamb0 kappa0 1 0;
                          call_gghlite_pk_ref; call_gghlite_clear 0])).
Proof.
  intros Hk Hl Hs init. unfold Encoded_Parent__init__, as_mp_limb_t, as_size_t.
  py_returned (new_object_returned w). apply released_returned.
  py_returned (as_unsigned_returned seed0 w Hs).
  py_returned (as_unsigned_returned kappa0 w Hk).
  py_returned (as_unsigned_returned lamb0 w Hl).
  unfold bind, native, alloc; cbn. rewrite <- !app_assoc. reflexivity.
Qed.

Lemma Encoded_Parent__init__raised_000 base0 kappa0 lamb0 seed0 category0 w :
  ~ (0 <= seed0 <= SIZE_MAX /\ 0 <= kappa0 <= SIZE_MAX /\ 0 <= lamb0 <= SIZE_MAX) ->
  Encoded_Parent__init__ base0 kappa0 lamb0 seed0 category0 w =
    (inl OverflowError,
     mkWorld (parents w)
             (trace w ++ [call_gghlite_pk_clear; call_flint_randclear;
                          call_mpfr_free_cache; call_flint_cleanup])).
Proof.
  intros Hbad. unfold Encoded_Parent__init__, as_mp_limb_t, as_size_t.
  py_returned (new_object_returned w).
  erewrite released_raised with (w' := w);
    [unfold Encoded_Parent__dealloc__, bind, native; cbn; by rewrite <- !app_assoc |].
  destruct (as_unsigned_cases seed0 w) as [[Hs Es] | [_ Es]]; [| by py_raised Es].
  py_returned Es.
  destruct (as_unsigned_cases kappa0 w) as [[Hk Ek] | [_ Ek]]; [| by py_raised Ek].
  py_returned Ek.
  destruct (as_unsigned_cases lamb0 w) as [[Hl El] | [_ El]]; [| by py_raised El].
  tauto.
Qed.

Lemma Encoded_Element__init__returned_000 parent x w P :
  parents w !! parent = Some P ->
  let sample := gghlite_sample (publickey P) 0 (randstate P) in
  Encoded_Element__init__ parent x w =
    (inr (mkElement parent (fst sample)),
     mkWorld (<[parent := set_randstate P (snd sample)]> (parents w))
             (trace w ++ [call_gghlite_enc_init; call_gghlite_sample 0])).
Proof.
  intros HP sample. unfold Encoded_Element__init__.
  py_returned (deref_returned w parent P HP).
  unfold bind, native, assign, ret; cbn. rewrite <- !app_assoc. reflexivity.
Qed.

(** The parent a result object was sampled through, after the sampling. *)
Lemma sampled_parent parent w P r :
  parents w !! parent = Some P ->
  <[parent := set_randstate P r]> (parents w) !! parent = Some (set_randstate P r).
Proof. intros HP. apply list_lookup_insert_eq. eapply lookup_lt_Some, HP. Qed.

Lemma _add__returned_000 self right w P :
  parents w !! _parent self = Some P ->
  let sample := gghlite_sample (publickey P) 0 (randstate P) in
  _add_ self right w =
    (inr (mkElement (_parent self) (gghlite_add (publickey P) (value self) (value right))),
     mkWorld (<[_parent self := set_randstate P (snd sample)]> (parents w))
             (trace w ++ [call_gghlite_enc_init; call_gghlite_sample 0; call_gghlite_add])).
Proof.
  intros HP sample. unfold _add_.
  py_returned (Encoded_Element__init__returned_000 (_parent self) 0 w P HP).
  py_returned (deref_returned (mkWorld _ _) _ _ (sampled_parent _ w P _ HP)).
  unfold bind, native, ret; cbn. rewrite <- !app_assoc. reflexivity.
Qed.

Lemma _mul__returned_000 self right w P :
  parents w !! _parent self = Some P ->
  let sample := gghlite_sample (publickey P) 0 (randstate P) in
  _mul_ self right w =
    (inr (mkElement (_parent self) (gghlite_mul (publickey P) (value self) (value right))),
     mkWorld (<[_parent self := set_randstate P (snd sample)]> (parents w))
             (trace w ++ [call_gghlite_enc_init; call_gghlite_sample 0; call_gghlite_mul])).
Proof.
  intros HP sample. unfold _mul_.
  py_returned (Encoded_Element__init__returned_000 (_parent self) 0 w P HP).
  py_returned (deref_returned (mkWorld _ _) _ _ (sampled_parent _ w P _ HP)).
  unfold bind, native, ret; cbn. rewrite <- !app_assoc. reflexivity.
Qed.

Lemma __nonzero__returned_000 self w P :
  parents w !! _parent self = Some P ->
  __nonzero__ self w =
    (inr (negb (gghlite_is_zero (publickey P) (value self))),
     mkWorld (parents w) (trace w ++ [call_gghlite_is_zero])).
Proof.
  intros HP. unfold __nonzero__.
  py_returned (deref_returned w _ P HP). reflexivity.
Qed.

End Calls.

End Part000Facts.

(** ** The ideal engine keeps the scheme's promises *)
Module IdealFacts.
Import Ideal.

Lemma top_degree (groups : nat) : forallb (Z.eqb 1) (replicate groups 1) = true.
Proof. induction groups as [| n IH]; [reflexivity | exact IH]. Qed.

Lemma ideal_scheme (s : sk) (groups : nat) :
  1 < sk_p s -> sk_kappa s = Z.of_nat groups ->
  Wrapper.graded_encoding_scheme (G := engine) s groups (encodes s).
Proof.
  intros Hp Hkappa. split; cbn.
  - exact Hp.
  - intros f k i rerand r Hi. unfold encodes, set_clr. cbn.
    rewrite Hkappa, !Nat2Z.id. auto.
  - intros f g a b u v [Hf Hu] [Hg Hv] _. unfold encodes, enc_mul. cbn.
    rewrite Hf, Hg, Hu, Hv, <- Zmult_mod. auto.
  - intros f g a b v [Hf Hu] [Hg Hv]. unfold encodes, enc_add. cbn.
    rewrite Hf, Hg, Hu, <- Zplus_mod. auto.
  - intros f g a b v [Hf Hu] [Hg Hv]. unfold encodes, enc_sub. cbn.
    rewrite Hf, Hg, Hu, <- Zminus_mod. auto.
  - intros f a [Hf Hu]. unfold enc_is_zero. cbn.
    intros Hzero. rewrite Hu, top_degree, Hf, Z.mod_mod by lia. cbn. by apply Z.eqb_eq.
Qed.


Lemma ideal_context (groups : Z) :
  Wrapper.context_at (G := engine) (sk_of groups) 0 (world_of groups).
Proof. exists (parent_of groups). repeat split. Qed.

Lemma ideal_encoding (groups a : Z) (v : list Z) :
  0 <= a < modulus ->
  Wrapper.encoding_of (G := engine) (encodes (sk_of groups)) 0
    (Wrapper.mkElement (G := engine) 0 (mkEnc a v 0)) a v.
Proof. intros Ha. split; [reflexivity |]. split; [| reflexivity]. cbn. by rewrite Z.mod_small. Qed.

End IdealFacts.

(** * The wrapper against its specification *)

Import Wrapper.

(** ** The end-to-end scenario of [wrapper/test.sage] *)

(** C1: on a context created with kappa = 5, whatever five plaintexts are
    drawn from the plaintext ring, the product of their encodings in the
    groups 0..4 and the product of an encoding of their product in group 0
    with encodings of one in the groups 1..4 differ by an encoding of zero:
    the script's [not bool(value1 - value2)] is [True].  The native library
    is assumed to keep the promises of a graded encoding scheme. *)
Theorem test_sage_works {G : GGHLite} (encodes : gghlite_enc_t -> Z -> list Z -> Prop)
    (draw : nat -> Z) :
  graded_encoding_scheme
    (fst (gghlite_init 20 5 1 init_flags (flint_randinit_seed 0 1))) 5 encodes ->
  exists w, test_sage draw empty_world = (inr true, w).
Proof.
  intros scheme.
  set (sk := fst (gghlite_init 20 5 1 init_flags (flint_randinit_seed 0 1))) in *.
  cut (returns (test_sage draw) empty_world (fun b _ => b = true)).
  { intros (b & w & Hrun & ->). exists w. exact Hrun. }
  unfold test_sage.
  (* Enc = Encoded_Parent(QQ, levels) *)
  apply returns_bind.
  exists 0%nat. eexists. split.
  { apply WrapperFacts.Encoded_Parent__init__returned; unfold SIZE_MAX, levels; lia. }
  cbn [parents trace empty_world app].
  match goal with |- returns _ ?w _ => set (w0 := w) end.
  assert (Hctx : context_at sk 0 w0).
  { eexists. split; [reflexivity |]. cbn. auto. }
  clearbody w0.
  (* Plain = Integers(Enc.getP()) *)
  apply returns_bind. eapply returns_weaken; [apply (WrapperFacts.getP_spec sk 0 w0 Hctx) |].
  cbv beta. intros modulus ? [-> ->].
  pose proof (scheme_modulus _ _ _ scheme) as Hm.
  set (m := gghlite_sk_get_p sk) in *.
  change (Z.to_nat levels) with 5%nat.
  change (range 0 levels) with [0; 1; 2; 3; 4].
  change (range 1 levels) with [1; 2; 3; 4].
  cbn [seq map zip_with reduce reduce_from comprehension fst snd].
  assert (Hsize : forall l, 0 <= l < 5 -> 0 <= l < Z.of_nat 5 /\ l <= SIZE_MAX)
    by (unfold SIZE_MAX; lia).
  pose proof (WrapperFacts.Encoded_Element__init__spec sk 5 encodes scheme 0) as Encode.
  pose proof (WrapperFacts._mul__spec sk 5 encodes scheme 0) as Mul.
  (* encoding = [Enc(x, lvl) for x, lvl in zip(plaintext, range(levels))] *)
  py_open. py_call Encode; [exact Hctx | apply Hsize; lia .. |].
  clear Hctx w0. intros e0 w0 [Hctx He0]. WrapperFacts.norm_degrees He0.
  py_open. py_call Encode; [exact Hctx | apply Hsize; lia .. |].
  clear Hctx w0. intros e1 w0 [Hctx He1]. WrapperFacts.norm_degrees He1.
  py_open. py_call Encode; [exact Hctx | apply Hsize; lia .. |].
  clear Hctx w0. intros e2 w0 [Hctx He2]. WrapperFacts.norm_degrees He2.
  py_open. py_call Encode; [exact Hctx | apply Hsize; lia .. |].
  clear Hctx w0. intros e3 w0 [Hctx He3]. WrapperFacts.norm_degrees He3.
  py_open. py_call Encode; [exact Hctx | apply Hsize; lia .. |].
  clear Hctx w0. intros e4 w0 [Hctx He4]. WrapperFacts.norm_degrees He4.
  (* value1 = reduce(mul, encoding) *)
  py_open. py_call (Mul w0 e0 e1);
    [exact Hctx | exact He0 | exact He1 | WrapperFacts.degrees_fit |].
  clear Hctx w0. intros e01 w0 [Hctx He01]. WrapperFacts.norm_degrees He01.
  py_open. py_call (Mul w0 e01 e2);
    [exact Hctx | exact He01 | exact He2 | WrapperFacts.degrees_fit |].
  clear Hctx w0. intros e02 w0 [Hctx He02]. WrapperFacts.norm_degrees He02.
  py_open. py_call (Mul w0 e02 e3);
    [exact Hctx | exact He02 | exact He3 | WrapperFacts.degrees_fit |].
  clear Hctx w0. intros e03 w0 [Hctx He03]. WrapperFacts.norm_degrees He03.
  py_open. py_call (Mul w0 e03 e4);
    [exact Hctx | exact He03 | exact He4 | WrapperFacts.degrees_fit |].
  clear Hctx w0. intros value1 w0 [Hctx Hvalue1]. WrapperFacts.norm_degrees Hvalue1.
  (* encoded_ones = [Enc(Plain(1), lvl) for lvl in range(1, levels)] *)
  py_open. py_call Encode; [exact Hctx | apply Hsize; lia .. |].
  clear Hctx w0. intros o1 w0 [Hctx Ho1]. WrapperFacts.norm_degrees Ho1.
  py_open. py_call Encode; [exact Hctx | apply Hsize; lia .. |].
  clear Hctx w0. intros o2 w0 [Hctx Ho2]. WrapperFacts.norm_degrees Ho2.
  py_open. py_call Encode; [exact Hctx | apply Hsize; lia .. |].
  clear Hctx w0. intros o3 w0 [Hctx Ho3]. WrapperFacts.norm_degrees Ho3.
  py_open. py_call Encode; [exact Hctx | apply Hsize; lia .. |].
  clear Hctx w0. intros o4 w0 [Hctx Ho4]. WrapperFacts.norm_degrees Ho4.
  (* value2 = Enc(result, 0) * reduce(mul, encoded_ones) *)
  py_open. py_call Encode; [exact Hctx | apply Hsize; lia .. |].
  clear Hctx w0. intros enc_result w0 [Hctx Hresult]. WrapperFacts.norm_degrees Hresult.
  py_open. py_call (Mul w0 o1 o2);
    [exact Hctx | exact Ho1 | exact Ho2 | WrapperFacts.degrees_fit |].
  clear Hctx w0. intros o12 w0 [Hctx Ho12]. WrapperFacts.norm_degrees Ho12.
  py_open. py_call (Mul w0 o12 o3);
    [exact Hctx | exact Ho12 | exact Ho3 | WrapperFacts.degrees_fit |].
  clear Hctx w0. intros o13 w0 [Hctx Ho13]. WrapperFacts.norm_degrees Ho13.
  py_open. py_call (Mul w0 o13 o4);
    [exact Hctx | exact Ho13 | exact Ho4 | WrapperFacts.degrees_fit |].
  clear Hctx w0. intros ones w0 [Hctx Hones]. WrapperFacts.norm_degrees Hones.
  py_open. py_call (Mul w0 enc_result ones);
    [exact Hctx | exact Hresult | exact Hones | WrapperFacts.degrees_fit |].
  clear Hctx w0. intros value2 w0 [Hctx Hvalue2]. WrapperFacts.norm_degrees Hvalue2.
  (* maybe_zero = value1 - value2 *)
  py_open.
  py_call (WrapperFacts._sub__spec sk 5 encodes scheme 0 w0 value1 value2);
    [exact Hctx | exact Hvalue1 | exact Hvalue2 |].
  clear Hctx w0. intros maybe_zero w0 [Hctx Hzero].
  (* not bool(maybe_zero) *)
  py_open.
  py_call (WrapperFacts.__nonzero__spec sk 5 encodes scheme 0 w0 maybe_zero);
    [exact Hctx | exact Hzero | |].
  { apply WrapperFacts.product_residue. exact Hm. }
  intros nz w1 ->. py_open. reflexivity.
Qed.

(** The scenario on the ideal engine, which keeps the promises. *)
Lemma test_sage_works_ideal :
  graded_encoding_scheme (G := Ideal.engine) (Ideal.mkSk 20 5 46 Ideal.modulus) 5
    (Ideal.encodes (Ideal.mkSk 20 5 46 Ideal.modulus)) /\
  exists w, test_sage (G := Ideal.engine) (fun i => 12345 + 777 * Z.of_nat i) empty_world
            = (inr true, w).
Proof.
  assert (Hscheme : graded_encoding_scheme (G := Ideal.engine)
                      (Ideal.mkSk 20 5 46 Ideal.modulus) 5
                      (Ideal.encodes (Ideal.mkSk 20 5 46 Ideal.modulus))).
  { apply IdealFacts.ideal_scheme; [reflexivity | reflexivity]. }
  split; [exact Hscheme |].
  exact (test_sage_works (G := Ideal.engine) _ _ Hscheme).
Defined.

(** ** Levels are not checked *)

(** C2, as the code has it: multiplication never rejects its operands.
    Whatever the two encodings are, [_mul_] initialises a result, calls the
    native multiplication with the parameters of the left operand's parent
    and returns the product as an element of that parent; the older wrapper
    does the same after sampling into the result it constructs. *)
Theorem multiply_never_rejects {G : GGHLite} {G0 : Part000.GGHLite}
    (a b : Encoded_Element) (w : World Encoded_Parent) (P : Encoded_Parent)
    (a0 b0 : Part000.Encoded_Element) (w0 : World Part000.Encoded_Parent)
    (P0 : Part000.Encoded_Parent) :
  parents w !! _parent a = Some P ->
  parents w0 !! Part000._parent a0 = Some P0 ->
  _mul_ a b w =
    (inr (mkElement (_parent a) (gghlite_enc_mul (params P) (value a) (value b))),
     mkWorld (parents w) (trace w ++ [call_gghlite_enc_init; call_gghlite_enc_mul])) /\
  Part000._mul_ a0 b0 w0 =
    (inr (Part000.mkElement (Part000._parent a0)
            (Part000.gghlite_mul (Part000.publickey P0) (Part000.value a0) (Part000.value b0))),
     mkWorld (<[Part000._parent a0 :=
                  Part000.set_randstate P0
                    (snd (Part000.gghlite_sample (Part000.publickey P0) 0
                            (Part000.randstate P0)))]> (parents w0))
             (trace w0 ++ [call_gghlite_enc_init; call_gghlite_sample 0; call_gghlite_mul])).
Proof.
  intros HP HP0. split.
  - exact (WrapperFacts._mul__returned a b w P HP).
  - exact (Part000Facts._mul__returned_000 a0 b0 w0 P0 HP0).
Qed.

Lemma multiply_never_rejects_ideal :
  _mul_ (G := Ideal.engine) Ideal.two_in_group0 Ideal.three_in_group1 Ideal.world5 =
    (inr (mkElement (G := Ideal.engine) 0 (Ideal.mkEnc 6 [1; 1; 0; 0; 0] 0)),
     mkWorld [Ideal.parent5] [call_gghlite_enc_init; call_gghlite_enc_mul]) /\
  Part000._mul_ (G := Ideal.engine000) Ideal.sampled000 Ideal.sampled000 Ideal.world000 =
    (inr (Part000.mkElement (G := Ideal.engine000) 0 (Ideal.mkEnc 9 [0] 6)),
     mkWorld [Part000.set_randstate Ideal.parent000 (Ideal.next (Ideal.next 0))]
             [call_gghlite_enc_init; call_gghlite_sample 0; call_gghlite_mul]).
Proof.
  exact (multiply_never_rejects (G := Ideal.engine) (G0 := Ideal.engine000)
           Ideal.two_in_group0 Ideal.three_in_group1 Ideal.world5 Ideal.parent5
           Ideal.sampled000 Ideal.sampled000 Ideal.world000 Ideal.parent000
           eq_refl eq_refl).
Defined.

(** C2, as the specification states it, fails: in a context with kappa = 1,
    two encodings at level 1 of the only group are multiplied, and the
    call returns an encoding (of degree 2) instead of raising. *)
Lemma multiply_past_kappa_returns :
  fst ((do Enc <~ Encoded_Parent__init__ (G := Ideal.engine) QQ 1 20 0 None ;;
        do a <~ Encoded_Element__init__ Enc 2 0 ;;
        do b <~ Encoded_Element__init__ Enc 3 0 ;;
        do c <~ _mul_ a b ;;
        do P <~ deref Enc ;;
        ret (kappa P, value a, value b, c)) empty_world)
  = inr (1, Ideal.mkEnc 2 [1] (Ideal.next 0), Ideal.mkEnc 3 [1] (Ideal.next (Ideal.next 0)),
         mkElement (G := Ideal.engine) 0
           (Ideal.mkEnc 6 [2] (Ideal.next 0 + Ideal.next (Ideal.next 0)))).
Proof. reflexivity. Qed.

(** C3, as the code has it: addition and subtraction check neither the
    parent nor the level of their operands.  They never raise: they
    initialise a result, call the native operation with the parameters of
    the left operand's parent, and return an element of that parent.  The
    elements carry no level. *)
Theorem add_sub_never_reject {G : GGHLite} {G0 : Part000.GGHLite}
    (a b : Encoded_Element) (w : World Encoded_Parent) (P : Encoded_Parent)
    (a0 b0 : Part000.Encoded_Element) (w0 : World Part000.Encoded_Parent)
    (P0 : Part000.Encoded_Parent) :
  parents w !! _parent a = Some P ->
  parents w0 !! Part000._parent a0 = Some P0 ->
  _add_ a b w =
    (inr (mkElement (_parent a) (gghlite_enc_add (params P) (value a) (value b))),
     mkWorld (parents w) (trace w ++ [call_gghlite_enc_init; call_gghlite_enc_add])) /\
  _sub_ a b w =
    (inr (mkElement (_parent a) (gghlite_enc_sub (params P) (value a) (value b))),
     mkWorld (parents w) (trace w ++ [call_gghlite_enc_init; call_gghlite_enc_sub])) /\
  Part000._add_ a0 b0 w0 =
    (inr (Part000.mkElement (Part000._parent a0)
            (Part000.gghlite_add (Part000.publickey P0) (Part000.value a0) (Part000.value b0))),
     mkWorld (<[Part000._parent a0 :=
                  Part000.set_randstate P0
                    (snd (Part000.gghlite_sample (Part000.publickey P0) 0
                            (Part000.randstate P0)))]> (parents w0))
             (trace w0 ++ [call_gghlite_enc_init; call_gghlite_sample 0; call_gghlite_add])).
Proof.
  intros HP HP0. split; [| split].
  - exact (WrapperFacts._add__returned a b w P HP).
  - exact (WrapperFacts._sub__returned a b w P HP).
  - exact (Part000Facts._add__returned_000 a0 b0 w0 P0 HP0).
Qed.

Lemma add_sub_never_reject_ideal :
  _add_ (G := Ideal.engine) Ideal.two_in_group0 Ideal.three_in_group1 Ideal.world5 =
    (inr (mkElement (G := Ideal.engine) 0 (Ideal.mkEnc 5 [1; 0; 0; 0; 0] 0)),
     mkWorld [Ideal.parent5] [call_gghlite_enc_init; call_gghlite_enc_add]) /\
  _sub_ (G := Ideal.engine) Ideal.two_in_group0 Ideal.three_in_group1 Ideal.world5 =
    (inr (mkElement (G := Ideal.engine) 0 (Ideal.mkEnc 1008 [1; 0; 0; 0; 0] 0)),
     mkWorld [Ideal.parent5] [call_gghlite_enc_init; call_gghlite_enc_sub]) /\
  Part000._add_ (G := Ideal.engine000) Ideal.sampled000 Ideal.sampled000 Ideal.world000 =
    (inr (Part000.mkElement (G := Ideal.engine000) 0 (Ideal.mkEnc 6 [0] 6)),
     mkWorld [Part000.set_randstate Ideal.parent000 (Ideal.next (Ideal.next 0))]
             [call_gghlite_enc_init; call_gghlite_sample 0; call_gghlite_add]).
Proof.
  exact (add_sub_never_reject (G := Ideal.engine) (G0 := Ideal.engine000)
           Ideal.two_in_group0 Ideal.three_in_group1 Ideal.world5 Ideal.parent5
           Ideal.sampled000 Ideal.sampled000 Ideal.world000 Ideal.parent000
           eq_refl eq_refl).
Defined.

(** C3, as the specification states it, fails: an encoding of one context
    (object 0) at level 1 of group 0 and an encoding of another context
    (object 1) at level 1 of group 1 are added and subtracted; both calls
    go through to the native library and return an element of the first
    context. *)
Lemma add_sub_across_contexts_return :
  (do Enc0 <~ Encoded_Parent__init__ (G := Ideal.engine) QQ 5 20 0 None ;;
   do Enc1 <~ Encoded_Parent__init__ QQ 5 20 1 None ;;
   do a <~ Encoded_Element__init__ Enc0 2 0 ;;
   do b <~ Encoded_Element__init__ Enc1 3 1 ;;
   do s <~ _add_ a b ;;
   do d <~ _sub_ a b ;;
   ret (a, b, s, d)) empty_world
  = (inr (mkElement (G := Ideal.engine) 0 (Ideal.mkEnc 2 [1; 0; 0; 0; 0] (Ideal.next 0)),
          mkElement (G := Ideal.engine) 1 (Ideal.mkEnc 3 [0; 1; 0; 0; 0] (Ideal.next 1)),
          mkElement (G := Ideal.engine) 0
            (Ideal.mkEnc 5 [1; 0; 0; 0; 0] (Ideal.next 0 + Ideal.next 1)),
          mkElement (G := Ideal.engine) 0
            (Ideal.mkEnc 1008 [1; 0; 0; 0; 0] (Ideal.next 0 - Ideal.next 1))),
     mkWorld [set_randstate Ideal.parent5 (Ideal.next (Ideal.next 0));
              mkParent (G := Ideal.engine) QQ Rings 5 20 Ideal.modulus
                (Ideal.mkParams 5 Ideal.modulus) (Ideal.next (Ideal.next 1))
                (Ideal.mkSk 20 5 46 Ideal.modulus)]
             [call_flint_randinit_seed 0 1; call_gghlite_init 20 5 1 46;
              call_gghlite_params_ref; call_gghlite_sk_get_p;
              call_flint_randinit_seed 1 1; call_gghlite_init 20 5 1 46;
              call_gghlite_params_ref; call_gghlite_sk_get_p;
              call_gghlite_enc_init; call_gghlite_enc_set_gghlite_clr 1 0 0;
              call_gghlite_enc_init; call_gghlite_enc_set_gghlite_clr 1 1 0;
              call_gghlite_enc_init; call_gghlite_enc_add;
              call_gghlite_enc_init; call_gghlite_enc_sub]).
Proof. reflexivity. Qed.

(** C4: the constructor does not check the level against kappa.  On any
    engine, in a context created with kappa = 5, [Enc(1, 7)] returns an
    element: the level is handed to the native encoding call as the group
    index. *)
Theorem encode_level_past_kappa_returns {G : GGHLite} :
  let init := gghlite_init 20 5 1 init_flags (flint_randinit_seed 0 1) in
  let enc := gghlite_enc_set_gghlite_clr (fst init) [1] 1 7 0 (snd init) in
  (do Enc <~ Encoded_Parent__init__ QQ 5 20 0 None ;;
   Encoded_Element__init__ Enc 1 7) empty_world
  = (inr (mkElement 0 (fst enc)),
     mkWorld [mkParent QQ Rings 5 20 (gghlite_sk_get_p (fst init))
                (gghlite_params_ref (fst init)) (snd enc) (fst init)]
             [call_flint_randinit_seed 0 1; call_gghlite_init 20 5 1 init_flags;
              call_gghlite_params_ref; call_gghlite_sk_get_p;
              call_gghlite_enc_init; call_gghlite_enc_set_gghlite_clr 1 7 0]).
Proof.
  intros init enc.
  py_returned (WrapperFacts.Encoded_Parent__init__returned QQ 5 20 0 None empty_world
                 ltac:(unfold SIZE_MAX; lia) ltac:(unfold SIZE_MAX; lia)
                 ltac:(unfold SIZE_MAX; lia)).
  cbn [parents trace empty_world app length].
  match goal with
  | |- Encoded_Element__init__ _ _ _ (mkWorld [?P] ?t) = _ =>
      rewrite (WrapperFacts.Encoded_Element__init__returned 0 1 7 (mkWorld [P] t) P eq_refl
                 ltac:(unfold SIZE_MAX; lia))
  end.
  reflexivity.
Qed.

(** ** Creating a context *)

(** C5, as the code has it: creation validates nothing beyond the
    conversions to unsigned machine integers.  When [seed], [kappa] and
    [lamb] all lie in [0, 2^64 - 1] it runs through and returns a context
    with these [kappa] and [lamb], zero included; otherwise it raises
    [OverflowError] before the randomness state is seeded or GGHLite is
    called, and leaves no context: the object whose initialisation failed
    is released, and all the call leaves in the trace are the clearing
    calls of its [__dealloc__], made on fields that were never
    initialised.  Both wrappers agree, each with its own [__dealloc__]. *)
Theorem create_rejects_only_unrepresentable {G : GGHLite} {G0 : Part000.GGHLite}
    (base0 : SageRing) (kappa0 lamb0 seed0 : Z) (category0 : option SageCategory)
    (w : World Encoded_Parent) (w0 : World Part000.Encoded_Parent) :
  let fits := 0 <= seed0 <= SIZE_MAX /\ 0 <= kappa0 <= SIZE_MAX /\ 0 <= lamb0 <= SIZE_MAX in
  (fits ->
   exists P P0,
     Encoded_Parent__init__ base0 kappa0 lamb0 seed0 category0 w =
       (inr (length (parents w)),
        mkWorld (parents w ++ [P])
                (trace w ++ [call_flint_randinit_seed seed0 1;
                             call_gghlite_init lamb0 kappa0 1 init_flags;
                             call_gghlite_params_ref; call_gghlite_sk_get_p])) /\
     kappa P = kappa0 /\ lamb P = lamb0 /\
     Part000.Encoded_Parent__init__ base0 kappa0 lamb0 seed0 category0 w0 =
       (inr (length (parents w0)),
        mkWorld (parents w0 ++ [P0])
                (trace w0 ++ [call_flint_randinit_seed seed0 1;
                              call_gghlite_init lamb0 kappa0 1 0;
                              call_gghlite_pk_ref; call_gghlite_clear 0])) /\
     Part000.kappa P0 = kappa0 /\ Part000.lamb P0 = lamb0) /\
  (~ fits ->
   Encoded_Parent__init__ base0 kappa0 lamb0 seed0 category0 w =
     (inl OverflowError,
      mkWorld (parents w)
              (trace w ++ [call_gghlite_params_clear; call_flint_randclear;
                           call_mpfr_free_cache; call_flint_cleanup])) /\
   Part000.Encoded_Parent__init__ base0 kappa0 lamb0 seed0 category0 w0 =
     (inl OverflowError,
      mkWorld (parents w0)
              (trace w0 ++ [call_gghlite_pk_clear; call_flint_randclear;
                            call_mpfr_free_cache; call_flint_cleanup]))).
Proof.
  intros fits. split.
  - intros (Hs & Hk & Hl). eexists _, _. split; [| split; [| split; [| split; [| split]]]].
    + exact (WrapperFacts.Encoded_Parent__init__returned base0 kappa0 lamb0 seed0 category0 w
               Hk Hl Hs).
    + reflexivity.
    + reflexivity.
    + exact (Part000Facts.Encoded_Parent__init__returned_000 base0 kappa0 lamb0 seed0 category0 w0
               Hk Hl Hs).
    + reflexivity.
    + reflexivity.
  - intros Hbad. split.
    + by apply WrapperFacts.Encoded_Parent__init__raised.
    + by apply Part000Facts.Encoded_Parent__init__raised_000.
Qed.

Lemma create_rejects_only_unrepresentable_ideal :
  Encoded_Parent__init__ (G := Ideal.engine) QQ (-1) 20 0 None empty_world =
    (inl OverflowError,
     mkWorld [] [call_gghlite_params_clear; call_flint_randclear;
                 call_mpfr_free_cache; call_flint_cleanup]) /\
  Part000.Encoded_Parent__init__ (G := Ideal.engine000) QQ (-1) 20 0 None empty_world =
    (inl OverflowError,
     mkWorld [] [call_gghlite_pk_clear; call_flint_randclear;
                 call_mpfr_free_cache; call_flint_cleanup]).
Proof.
  apply (create_rejects_only_unrepresentable (G := Ideal.engine) (G0 := Ideal.engine000)
           QQ (-1) 20 0 None empty_world empty_world).
  intros (_ & Hk & _). lia.
Defined.

(** C5, as the specification states it, fails: creation with kappa = 0, and
    creation with lambda = 0, return a context, in either wrapper. *)
Lemma create_kappa_zero_returns :
  Encoded_Parent__init__ (G := Ideal.engine) QQ 0 20 0 None empty_world =
    (inr 0%nat,
     mkWorld [mkParent (G := Ideal.engine) QQ Rings 0 20 Ideal.modulus
                (Ideal.mkParams 0 Ideal.modulus) (Ideal.next 0)
                (Ideal.mkSk 20 0 46 Ideal.modulus)]
             [call_flint_randinit_seed 0 1; call_gghlite_init 20 0 1 46;
              call_gghlite_params_ref; call_gghlite_sk_get_p]) /\
  Encoded_Parent__init__ (G := Ideal.engine) QQ 5 0 0 None empty_world =
    (inr 0%nat,
     mkWorld [mkParent (G := Ideal.engine) QQ Rings 5 0 Ideal.modulus
                (Ideal.mkParams 5 Ideal.modulus) (Ideal.next 0)
                (Ideal.mkSk 0 5 46 Ideal.modulus)]
             [call_flint_randinit_seed 0 1; call_gghlite_init 0 5 1 46;
              call_gghlite_params_ref; call_gghlite_sk_get_p]) /\
  Part000.Encoded_Parent__init__ (G := Ideal.engine000) QQ 0 0 0 None empty_world =
    (inr 0%nat,
     mkWorld [Part000.mkParent (G := Ideal.engine000) QQ Rings 0 0
                (Ideal.mkParams 0 Ideal.modulus) (Ideal.next 0)]
             [call_flint_randinit_seed 0 1; call_gghlite_init 0 0 1 0;
              call_gghlite_pk_ref; call_gghlite_clear 0]).
Proof. repeat split. Qed.

(** C6: the current wrapper returns from creation with the secret instance
    uncleared.  The older wrapper clears the GGHLite instance as its last
    native call before creation returns, and its context holds the public
    key and the randomness state only.  The current wrapper, whose comment
    still announces the clearing, makes no clearing call: the context it
    returns holds the instance that [gghlite_init] generated, and a later
    [Enc(x, level)] hands that instance to the native encoding call. *)
Theorem create_secret_instance {G : GGHLite} {G0 : Part000.GGHLite}
    (base0 : SageRing) (kappa0 lamb0 seed0 : Z) (category0 : option SageCategory)
    (w : World Encoded_Parent) (w0 : World Part000.Encoded_Parent) (x level : Z) :
  0 <= kappa0 <= SIZE_MAX -> 0 <= lamb0 <= SIZE_MAX -> 0 <= seed0 <= SIZE_MAX ->
  0 <= level <= SIZE_MAX ->
  let init0 := Part000.gghlite_init lamb0 kappa0 1 0 (Part000.flint_randinit_seed seed0 1) in
  let init := gghlite_init lamb0 kappa0 1 init_flags (flint_randinit_seed seed0 1) in
  let category1 := match category0 with Some c => c | None => Rings end in
  Part000.Encoded_Parent__init__ base0 kappa0 lamb0 seed0 category0 w0 =
    (inr (length (parents w0)),
     mkWorld (parents w0 ++
                [Part000.mkParent base0 category1 kappa0 lamb0
                   (Part000.gghlite_pk_ref (fst init0)) (snd init0)])
             (trace w0 ++ [call_flint_randinit_seed seed0 1;
                           call_gghlite_init lamb0 kappa0 1 0;
                           call_gghlite_pk_ref; call_gghlite_clear 0])) /\
  exists P w',
    Encoded_Parent__init__ base0 kappa0 lamb0 seed0 category0 w = (inr (length (parents w)), w') /\
    parents w' = parents w ++ [P] /\
    instance P = fst init /\
    trace w' = trace w ++ [call_flint_randinit_seed seed0 1;
                           call_gghlite_init lamb0 kappa0 1 init_flags;
                           call_gghlite_params_ref; call_gghlite_sk_get_p] /\
    fst (Encoded_Element__init__ (length (parents w)) x level w') =
      inr (mkElement (length (parents w))
             (fst (gghlite_enc_set_gghlite_clr (fst init) (fmpz_poly_set_coeff_fmpz [] 0 x)
                     1 level 0 (snd init)))).
Proof.
  intros Hk Hl Hs Hlevel init0 init category1. split.
  - exact (Part000Facts.Encoded_Parent__init__returned_000 base0 kappa0 lamb0 seed0 category0 w0
             Hk Hl Hs).
  - eexists _, _. split; [| split; [| split; [| split]]].
    + exact (WrapperFacts.Encoded_Parent__init__returned base0 kappa0 lamb0 seed0 category0 w
               Hk Hl Hs).
    + reflexivity.
    + reflexivity.
    + reflexivity.
    + erewrite WrapperFacts.Encoded_Element__init__returned;
        [| cbn [parents]; apply list_lookup_middle; reflexivity | lia].
      reflexivity.
Qed.

Lemma create_secret_instance_ideal :
  Part000.Encoded_Parent__init__ (G := Ideal.engine000) QQ 5 20 0 None empty_world =
    (inr 0%nat,
     mkWorld [Ideal.parent000]
             [call_flint_randinit_seed 0 1; call_gghlite_init 20 5 1 0;
              call_gghlite_pk_ref; call_gghlite_clear 0]) /\
  exists P w',
    Encoded_Parent__init__ (G := Ideal.engine) QQ 5 20 0 None empty_world = (inr 0%nat, w') /\
    parents w' = [P] /\
    instance P = Ideal.mkSk 20 5 46 Ideal.modulus /\
    trace w' = [call_flint_randinit_seed 0 1; call_gghlite_init 20 5 1 46;
                call_gghlite_params_ref; call_gghlite_sk_get_p] /\
    fst (Encoded_Element__init__ 0%nat 1 0 w') =
      inr (mkElement (G := Ideal.engine) 0 (Ideal.mkEnc 1 [1; 0; 0; 0; 0] (Ideal.next 0))).
Proof.
  exact (create_secret_instance (G := Ideal.engine) (G0 := Ideal.engine000)
           QQ 5 20 0 None empty_world empty_world 1 0
           ltac:(unfold SIZE_MAX; lia) ltac:(unfold SIZE_MAX; lia)
           ltac:(unfold SIZE_MAX; lia) ltac:(unfold SIZE_MAX; lia)).
Defined.

(** ** Constructing encodings *)



(** C9: the constructor of the older wrapper ignores its argument [x].  It
    takes no level; whatever [x] is, it initialises an encoding and has the
    engine sample into it at level 0 with the parent's randomness state,
    which it advances. *)
Theorem part000_constructor_ignores_x {G0 : Part000.GGHLite}
    (parent : nat) (x x' : Z) (w : World Part000.Encoded_Parent)
    (P : Part000.Encoded_Parent) :
  parents w !! parent = Some P ->
  let sample := Part000.gghlite_sample (Part000.publickey P) 0 (Part000.randstate P) in
  Part000.Encoded_Element__init__ parent x w =
    (inr (Part000.mkElement parent (fst sample)),
     mkWorld (<[parent := Part000.set_randstate P (snd sample)]> (parents w))
             (trace w ++ [call_gghlite_enc_init; call_gghlite_sample 0])) /\
  Part000.Encoded_Element__init__ parent x w = Part000.Encoded_Element__init__ parent x' w.
Proof.
  intros HP sample. split.
  - exact (Part000Facts.Encoded_Element__init__returned_000 parent x w P HP).
  - reflexivity.
Qed.

Lemma part000_constructor_ignores_x_ideal :
  Part000.Encoded_Element__init__ (G := Ideal.engine000) 0 7 Ideal.world000 =
    (inr (Part000.mkElement (G := Ideal.engine000) 0
            (Ideal.mkEnc (Ideal.next 0 mod Ideal.modulus) [0] (Ideal.next 0))),
     mkWorld [Part000.set_randstate Ideal.parent000 (Ideal.next (Ideal.next 0))]
             [call_gghlite_enc_init; call_gghlite_sample 0]) /\
  Part000.Encoded_Element__init__ (G := Ideal.engine000) 0 7 Ideal.world000 =
  Part000.Encoded_Element__init__ (G := Ideal.engine000) 0 1000 Ideal.world000.
Proof.
  exact (part000_constructor_ignores_x (G0 := Ideal.engine000) 0 7 1000
           Ideal.world000 Ideal.parent000 eq_refl).
Defined.

(** ** The truth value of an encoding *)

(** C10: [bool(e)] is the negation of the native zero test, in both
    wrappers: [__nonzero__] returns [False] exactly when the engine reports
    that [e] encodes zero. *)
Theorem nonzero_negates_zero_test {G : GGHLite} {G0 : Part000.GGHLite}
    (e : Encoded_Element) (w : World Encoded_Parent) (P : Encoded_Parent)
    (e0 : Part000.Encoded_Element) (w0 : World Part000.Encoded_Parent)
    (P0 : Part000.Encoded_Parent) :
  parents w !! _parent e = Some P ->
  parents w0 !! Part000._parent e0 = Some P0 ->
  (exists b, __nonzero__ e w = (inr b, mkWorld (parents w)
                                         (trace w ++ [call_gghlite_enc_is_zero])) /\
             (b = false <-> gghlite_enc_is_zero (params P) (value e) = true)) /\
  (exists b, Part000.__nonzero__ e0 w0 =
               (inr b, mkWorld (parents w0) (trace w0 ++ [call_gghlite_is_zero])) /\
             (b = false <->
              Part000.gghlite_is_zero (Part000.publickey P0) (Part000.value e0) = true)).
Proof.
  intros HP HP0. split.
  - eexists. split; [exact (WrapperFacts.__nonzero__returned e w P HP) |].
    apply negb_false_iff.
  - eexists. split; [exact (Part000Facts.__nonzero__returned_000 e0 w0 P0 HP0) |].
    apply negb_false_iff.
Qed.

Lemma nonzero_negates_zero_test_ideal :
  (exists b, __nonzero__ (G := Ideal.engine) Ideal.two_in_group0 Ideal.world5 =
               (inr b, mkWorld [Ideal.parent5] [call_gghlite_enc_is_zero]) /\
             (b = false <->
              Ideal.enc_is_zero (Ideal.mkParams 5 Ideal.modulus)
                (Ideal.mkEnc 2 [1; 0; 0; 0; 0] 0) = true)) /\
  (exists b, Part000.__nonzero__ (G := Ideal.engine000) Ideal.sampled000 Ideal.world000 =
               (inr b, mkWorld [Ideal.parent000] [call_gghlite_is_zero]) /\
             (b = false <->
              Ideal.enc_is_zero (Ideal.mkParams 5 Ideal.modulus) (Ideal.mkEnc 3 [0] 3) = true)).
Proof.
  exact (nonzero_negates_zero_test (G := Ideal.engine) (G0 := Ideal.engine000)
           Ideal.two_in_group0 Ideal.world5 Ideal.parent5
           Ideal.sampled000 Ideal.world000 Ideal.parent000 eq_refl eq_refl).
Defined.

(** * More about the wrappers *)

(** ** The constructor of the current wrapper *)

(** X1: on a context of the heap, [Enc(x, level)] returns exactly when
    [level] lies in [0, 2^64 - 1].  Otherwise it raises [OverflowError]
    once the encoding has been initialised, and the element is released,
    which clears the encoding: the native encoding call is not made and
    the heap, the randomness state with it, stays as it was. *)
Theorem constructor_level_range {G : GGHLite}
    (parent : nat) (x level : Z) (w : World Encoded_Parent) (P : Encoded_Parent) :
  parents w !! parent = Some P ->
  ((exists e w', Encoded_Element__init__ parent x level w = (inr e, w'))
   <-> 0 <= level <= SIZE_MAX) /\
  (~ 0 <= level <= SIZE_MAX ->
   Encoded_Element__init__ parent x level w =
     (inl OverflowError,
      mkWorld (parents w) (trace w ++ [call_gghlite_enc_init; call_gghlite_enc_clear]))).
Proof.
  intros HP.
  assert (Hraise : ~ 0 <= level <= SIZE_MAX ->
            Encoded_Element__init__ parent x level w =
              (inl OverflowError,
               mkWorld (parents w)
                       (trace w ++ [call_gghlite_enc_init; call_gghlite_enc_clear]))).
  { intros Hbad. apply (WrapperFacts.Encoded_Element__init__raised parent x level w P HP). lia. }
  split; [| exact Hraise]. split.
  - intros (e & w' & Hrun).
    destruct (decide (0 <= level <= SIZE_MAX)) as [Hfit | Hbad]; [exact Hfit |].
    rewrite (Hraise Hbad) in Hrun. discriminate.
  - intros Hfit. eexists _, _.
    exact (WrapperFacts.Encoded_Element__init__returned parent x level w P HP Hfit).
Qed.

Lemma constructor_level_range_ideal :
  Encoded_Element__init__ (G := Ideal.engine) 0 1 (-1) Ideal.world5 =
    (inl OverflowError,
     mkWorld [Ideal.parent5] [call_gghlite_enc_init; call_gghlite_enc_clear]).
Proof.
  apply (proj2 (constructor_level_range (G := Ideal.engine) 0 1 (-1)
                  Ideal.world5 Ideal.parent5 eq_refl)).
  lia.
Defined.

(** X2: whatever its arguments are and whether it returns or raises, the
    constructor neither adds nor removes a context, leaves every context
    other than its parent untouched, and changes nothing of its parent but
    the randomness state. *)
Theorem constructor_frame {G : GGHLite}
    (parent : nat) (x level : Z) (w : World Encoded_Parent) :
  let w' := snd (Encoded_Element__init__ parent x level w) in
  length (parents w') = length (parents w) /\
  (forall o, o <> parent -> parents w' !! o = parents w !! o) /\
  (forall P, parents w !! parent = Some P ->
             exists r, parents w' !! parent = Some (set_randstate P r)).
Proof.
  intros w'.
  destruct (WrapperFacts.Encoded_Element__init__frame parent x level w) as (Hlen & Hother & Hown).
  split; [exact Hlen |]. split; [exact Hother |].
  intros P HP. destruct (Hown P HP) as (P' & HP' & r & ->). by exists r.
Qed.

Lemma constructor_frame_ideal :
  parents (snd (Encoded_Element__init__ (G := Ideal.engine) 0 1 0
                  (mkWorld [Ideal.parent_of 2; Ideal.parent5] []))) !! 1%nat
  = Some Ideal.parent5.
Proof.
  exact (proj1 (proj2 (constructor_frame (G := Ideal.engine) 0 1 0
                         (mkWorld [Ideal.parent_of 2; Ideal.parent5] [])))
           1%nat ltac:(discriminate)).
Defined.

(** X3: addition, multiplication, subtraction and the zero test of the
    current wrapper leave the heap as it is: they draw no randomness.  An
    encoding constructed after one of them is the encoding that would have
    been constructed without it. *)
Theorem arithmetic_keeps_the_heap {G : GGHLite}
    (a b : Encoded_Element) (parent : nat) (x level : Z)
    (w : World Encoded_Parent) (P : Encoded_Parent) :
  parents w !! _parent a = Some P ->
  (parents (snd (_add_ a b w)) = parents w /\
   parents (snd (_mul_ a b w)) = parents w /\
   parents (snd (_sub_ a b w)) = parents w /\
   parents (snd (__nonzero__ a w)) = parents w) /\
  fst ((do c <~ _add_ a b ;; Encoded_Element__init__ parent x level) w) =
    fst (Encoded_Element__init__ parent x level w) /\
  fst ((do c <~ _mul_ a b ;; Encoded_Element__init__ parent x level) w) =
    fst (Encoded_Element__init__ parent x level w) /\
  fst ((do c <~ _sub_ a b ;; Encoded_Element__init__ parent x level) w) =
    fst (Encoded_Element__init__ parent x level w) /\
  fst ((do c <~ __nonzero__ a ;; Encoded_Element__init__ parent x level) w) =
    fst (Encoded_Element__init__ parent x level w).
Proof.
  intros HP. destruct w as [ps t]. cbn [parents] in HP.
  py_returned (WrapperFacts._add__returned a b (mkWorld ps t) P HP).
  py_returned (WrapperFacts._mul__returned a b (mkWorld ps t) P HP).
  py_returned (WrapperFacts._sub__returned a b (mkWorld ps t) P HP).
  py_returned (WrapperFacts.__nonzero__returned a (mkWorld ps t) P HP).
  rewrite (WrapperFacts._add__returned a b (mkWorld ps t) P HP).
  rewrite (WrapperFacts._mul__returned a b (mkWorld ps t) P HP).
  rewrite (WrapperFacts._sub__returned a b (mkWorld ps t) P HP).
  rewrite (WrapperFacts.__nonzero__returned a (mkWorld ps t) P HP).
  cbn [parents trace snd].
  split; [repeat split |]. repeat split; apply WrapperFacts.Encoded_Element__init__outcome.
Qed.

Lemma arithmetic_keeps_the_heap_ideal :
  (parents (snd (_add_ (G := Ideal.engine) Ideal.two_in_group0 Ideal.three_in_group1
                   Ideal.world5)) = parents Ideal.world5 /\
   parents (snd (_mul_ (G := Ideal.engine) Ideal.two_in_group0 Ideal.three_in_group1
                   Ideal.world5)) = parents Ideal.world5 /\
   parents (snd (_sub_ (G := Ideal.engine) Ideal.two_in_group0 Ideal.three_in_group1
                   Ideal.world5)) = parents Ideal.world5 /\
   parents (snd (__nonzero__ (G := Ideal.engine) Ideal.two_in_group0 Ideal.world5))
     = parents Ideal.world5) /\
  fst ((do c <~ _add_ (G := Ideal.engine) Ideal.two_in_group0 Ideal.three_in_group1 ;;
        Encoded_Element__init__ 0 7 2) Ideal.world5) =
    fst (Encoded_Element__init__ (G := Ideal.engine) 0 7 2 Ideal.world5) /\
  fst ((do c <~ _mul_ (G := Ideal.engine) Ideal.two_in_group0 Ideal.three_in_group1 ;;
        Encoded_Element__init__ 0 7 2) Ideal.world5) =
    fst (Encoded_Element__init__ (G := Ideal.engine) 0 7 2 Ideal.world5) /\
  fst ((do c <~ _sub_ (G := Ideal.engine) Ideal.two_in_group0 Ideal.three_in_group1 ;;
        Encoded_Element__init__ 0 7 2) Ideal.world5) =
    fst (Encoded_Element__init__ (G := Ideal.engine) 0 7 2 Ideal.world5) /\
  fst ((do c <~ __nonzero__ (G := Ideal.engine) Ideal.two_in_group0 ;;
        Encoded_Element__init__ 0 7 2) Ideal.world5) =
    fst (Encoded_Element__init__ (G := Ideal.engine) 0 7 2 Ideal.world5).
Proof.
  exact (arithmetic_keeps_the_heap (G := Ideal.engine)
           Ideal.two_in_group0 Ideal.three_in_group1 0 7 2 Ideal.world5 Ideal.parent5 eq_refl).
Defined.

(** X6: a sequence of constructor calls on a context, each made whether
    the ones before it returned or raised, leaves the context in the heap
    with its kappa, lambda, modulus, parameters and instance as they were:
    [getP] afterwards still returns the modulus of the context. *)
Theorem constructions_keep_the_context {G : GGHLite}
    (calls : list (Z * Z)) (o : nat) (w : World Encoded_Parent) (P : Encoded_Parent) :
  parents w !! o = Some P ->
  let w' := after_constructions o calls w in
  exists P',
    parents w' !! o = Some P' /\
    kappa P' = kappa P /\ lamb P' = lamb P /\ p P' = p P /\
    params P' = params P /\ instance P' = instance P /\
    getP o w' = (inr (p P), w').
Proof.
  intros HP w'.
  destruct (WrapperFacts.constructions_keep_context calls o w P HP) as (P' & HP' & Hsame).
  destruct (WrapperFacts.same_but_randstate_fields P P' Hsame)
    as (_ & _ & Hkappa & Hlamb & Hp & Hparams & Hinstance).
  exists P'. repeat (split; [assumption |]).
  rewrite <- Hp. by apply WrapperFacts.getP_returned.
Qed.

(** [Enc(1, 0)], [Enc(2, -1)], which raises, and then [Enc(3, 7)]: the
    trace shows that the third call is made. *)
Lemma constructions_keep_the_context_ideal :
  after_constructions (G := Ideal.engine) 0 [(1, 0); (2, -1); (3, 7)] Ideal.world5 =
    mkWorld [set_randstate Ideal.parent5 (Ideal.next (Ideal.next (Ideal.next 0)))]
            [call_gghlite_enc_init; call_gghlite_enc_set_gghlite_clr 1 0 0;
             call_gghlite_enc_init; call_gghlite_enc_clear;
             call_gghlite_enc_init; call_gghlite_enc_set_gghlite_clr 1 7 0] /\
  exists P',
    parents (after_constructions (G := Ideal.engine) 0 [(1, 0); (2, -1); (3, 7)] Ideal.world5)
      !! 0%nat = Some P' /\
    kappa P' = 5 /\ lamb P' = 20 /\ p P' = Ideal.modulus /\
    params P' = Ideal.mkParams 5 Ideal.modulus /\
    instance P' = Ideal.mkSk 20 5 46 Ideal.modulus /\
    getP 0 (after_constructions (G := Ideal.engine) 0 [(1, 0); (2, -1); (3, 7)] Ideal.world5)
    = (inr Ideal.modulus,
       after_constructions (G := Ideal.engine) 0 [(1, 0); (2, -1); (3, 7)] Ideal.world5).
Proof.
  split; [reflexivity |].
  exact (constructions_keep_the_context (G := Ideal.engine) [(1, 0); (2, -1); (3, 7)] 0
           Ideal.world5 Ideal.parent5 eq_refl).
Defined.

(** ** The older wrapper draws randomness in its arithmetic *)

(** X4: in the older wrapper an addition or a multiplication constructs its
    result object through the constructor, which samples: the operation
    uses up one sample of the context.  The encoding constructed after it
    is the second sample of the randomness state, as it is after another
    construction. *)
Theorem part000_arithmetic_draws_a_sample {G0 : Part000.GGHLite}
    (a b : Part000.Encoded_Element) (x y : Z) (w : World Part000.Encoded_Parent)
    (P : Part000.Encoded_Parent) :
  parents w !! Part000._parent a = Some P ->
  let pk := Part000.publickey P in
  let second := fst (Part000.gghlite_sample pk 0
                       (snd (Part000.gghlite_sample pk 0 (Part000.randstate P)))) in
  fst ((do s <~ Part000._add_ a b ;; Part000.Encoded_Element__init__ (Part000._parent a) x) w)
    = inr (Part000.mkElement (Part000._parent a) second) /\
  fst ((do s <~ Part000._mul_ a b ;; Part000.Encoded_Element__init__ (Part000._parent a) x) w)
    = inr (Part000.mkElement (Part000._parent a) second) /\
  fst ((do s <~ Part000.Encoded_Element__init__ (Part000._parent a) y ;;
        Part000.Encoded_Element__init__ (Part000._parent a) x) w)
    = inr (Part000.mkElement (Part000._parent a) second).
Proof.
  intros HP pk second.
  pose proof (Part000Facts.sampled_parent (Part000._parent a) w P
                (snd (Part000.gghlite_sample pk 0 (Part000.randstate P))) HP) as HP'.
  py_returned (Part000Facts._add__returned_000 a b w P HP).
  py_returned (Part000Facts._mul__returned_000 a b w P HP).
  py_returned (Part000Facts.Encoded_Element__init__returned_000 (Part000._parent a) y w P HP).
  rewrite !(Part000Facts.Encoded_Element__init__returned_000 (Part000._parent a) x
              (mkWorld _ _) _ HP').
  repeat split.
Qed.

Lemma part000_arithmetic_draws_a_sample_ideal :
  fst ((do s <~ Part000._add_ (G := Ideal.engine000) Ideal.sampled000 Ideal.sampled000 ;;
        Part000.Encoded_Element__init__ 0 1) Ideal.world000)
    = inr (Part000.mkElement (G := Ideal.engine000) 0
             (fst (Ideal.sample (Ideal.mkParams 5 Ideal.modulus) 0
                     (Ideal.next (Ideal.next 0))))) /\
  fst ((do s <~ Part000._mul_ (G := Ideal.engine000) Ideal.sampled000 Ideal.sampled000 ;;
        Part000.Encoded_Element__init__ 0 1) Ideal.world000)
    = inr (Part000.mkElement (G := Ideal.engine000) 0
             (fst (Ideal.sample (Ideal.mkParams 5 Ideal.modulus) 0
                     (Ideal.next (Ideal.next 0))))) /\
  fst ((do s <~ Part000.Encoded_Element__init__ (G := Ideal.engine000) 0 2 ;;
        Part000.Encoded_Element__init__ 0 1) Ideal.world000)
    = inr (Part000.mkElement (G := Ideal.engine000) 0
             (fst (Ideal.sample (Ideal.mkParams 5 Ideal.modulus) 0
                     (Ideal.next (Ideal.next 0))))).
Proof.
  exact (part000_arithmetic_draws_a_sample (G0 := Ideal.engine000)
           Ideal.sampled000 Ideal.sampled000 1 2 Ideal.world000 Ideal.parent000 eq_refl).
Defined.

(** ** The secret instance is never cleared *)

(** X5: no function of the current wrapper makes a native call that clears
    the GGHLite instance: not the creation of a context, not [getP], the
    constructor, the ring operations or the zero test, not the
    deallocation of an element or of a context, and so not [test.sage].
    Each only appends to the trace. *)
Theorem instance_never_cleared {G : GGHLite} :
  (forall base0 kappa0 lamb0 seed0 category0,
     never_calls clears_instance (Encoded_Parent__init__ base0 kappa0 lamb0 seed0 category0)) /\
  (forall o, never_calls clears_instance (getP o)) /\
  (forall o x level, never_calls clears_instance (Encoded_Element__init__ o x level)) /\
  (forall a, never_calls clears_instance (_new_c a)) /\
  (forall a b, never_calls clears_instance (_add_ a b)) /\
  (forall a b, never_calls clears_instance (_mul_ a b)) /\
  (forall a b, never_calls clears_instance (_sub_ a b)) /\
  (forall a, never_calls clears_instance (__nonzero__ a)) /\
  (forall a, never_calls clears_instance (Encoded_Element__dealloc__ a)) /\
  (forall o, never_calls clears_instance (Encoded_Parent__dealloc__ o)) /\
  (forall draw, never_calls clears_instance (test_sage draw)).
Proof.
  repeat split; intros.
  - unfold Encoded_Parent__init__, as_mp_limb_t, as_size_t. footprint.
  - unfold getP. footprint.
  - unfold Encoded_Element__init__, as_size_t. footprint.
  - unfold _new_c. footprint.
  - unfold _add_. footprint.
  - unfold _mul_. footprint.
  - unfold _sub_. footprint.
  - unfold __nonzero__. footprint.
  - unfold Encoded_Element__dealloc__. footprint.
  - unfold Encoded_Parent__dealloc__. footprint.
  - unfold test_sage. footprint.
Qed.

(** ** Ring laws up to the zero test

    On a context whose instance keeps the promises of a graded encoding
    scheme. *)

(** X7: [reduce(mul, [e] + es)] returns an encoding of the product of the
    plaintexts, with the degrees of the operands added up, as long as no
    step of the iteration takes a group past degree one. *)
Theorem reduce_mul_encodes_the_product {G : GGHLite}
    (sk : gghlite_sk_t) (groups : nat) (encodes : gghlite_enc_t -> Z -> list Z -> Prop)
    (o : nat) (e : Encoded_Element) (es : list Encoded_Element) (bvs : list (Z * list Z))
    (w : World Encoded_Parent) (a : Z) (u : list Z) :
  graded_encoding_scheme sk groups encodes ->
  context_at sk o w ->
  encoding_of encodes o e a u ->
  Forall2 (fun e' bv => encoding_of encodes o e' (fst bv) (snd bv)) es bvs ->
  degrees_fit_from u (map snd bvs) ->
  exists r w',
    reduce _mul_ (e :: es) w = (inr r, w') /\
    context_at sk o w' /\
    encoding_of encodes o r (fold_left Z.mul (map fst bvs) a)
      (fold_left (zip_with Z.add) (map snd bvs) u).
Proof.
  intros scheme Hctx He Hes Hfit.
  exact (WrapperFacts.reduce_from_mul_spec sk groups encodes scheme o fst snd es bvs Hes
           w e a u Hctx He Hfit).
Qed.

Lemma reduce_mul_encodes_the_product_ideal :
  exists r w',
    reduce (_mul_ (G := Ideal.engine)) [Ideal.in_group0_of_two 2; Ideal.in_group1_of_two 3]
      (Ideal.world_of 2) = (inr r, w') /\
    context_at (G := Ideal.engine) (Ideal.sk_of 2) 0 w' /\
    encoding_of (G := Ideal.engine) (Ideal.encodes (Ideal.sk_of 2)) 0 r
      (fold_left Z.mul (map fst [(3, [0; 1])]) 2)
      (fold_left (zip_with Z.add) (map snd [(3, [0; 1])]) [1; 0]).
Proof.
  apply (reduce_mul_encodes_the_product (G := Ideal.engine) (Ideal.sk_of 2) 2
           (Ideal.encodes (Ideal.sk_of 2)) 0 (Ideal.in_group0_of_two 2)
           [Ideal.in_group1_of_two 3] [(3, [0; 1])] (Ideal.world_of 2) 2 [1; 0]).
  - apply IdealFacts.ideal_scheme; reflexivity.
  - apply IdealFacts.ideal_context.
  - apply IdealFacts.ideal_encoding. unfold Ideal.modulus. lia.
  - constructor; [| constructor].
    apply (IdealFacts.ideal_encoding 2 3 [0; 1]). unfold Ideal.modulus. lia.
  - cbn. split; [| exact I]. repeat (apply List.Forall_cons; [lia |]). apply List.Forall_nil.
Defined.

(** X8: multiplication distributes over addition up to the zero test: for
    encodings [a], [b] of one degree vector and [c] of the complementary
    one, [not bool((a + b) * c - (a * c + b * c))] is [True]. *)
Theorem distributes_up_to_zero_test {G : GGHLite}
    (sk : gghlite_sk_t) (groups : nat) (encodes : gghlite_enc_t -> Z -> list Z -> Prop)
    (o : nat) (w : World Encoded_Parent) (a b c : Encoded_Element) (x y z : Z) (u v : list Z) :
  graded_encoding_scheme sk groups encodes ->
  context_at sk o w ->
  encoding_of encodes o a x u -> encoding_of encodes o b y u -> encoding_of encodes o c z v ->
  zip_with Z.add u v = replicate groups 1 ->
  exists w',
    (do s <~ _add_ a b ;;
     do l <~ _mul_ s c ;;
     do ac <~ _mul_ a c ;;
     do bc <~ _mul_ b c ;;
     do r <~ _add_ ac bc ;;
     do d <~ _sub_ l r ;;
     do nz <~ __nonzero__ d ;;
     ret (negb nz)) w = (inr true, w').
Proof.
  intros scheme Hctx Ha Hb Hc Htop.
  pose proof (WrapperFacts.top_fits groups u v Htop) as Hfit.
  match goal with
  | |- exists w', ?m w = _ => cut (returns m w (fun b _ => b = true))
  end.
  { intros (r & w' & Hrun & ->). exists w'. exact Hrun. }
  pose proof (WrapperFacts._add__spec sk groups encodes scheme o) as Add.
  pose proof (WrapperFacts._mul__spec sk groups encodes scheme o) as Mul.
  apply returns_bind. py_call (Add w a b); [exact Hctx | exact Ha | exact Hb |].
  clear Hctx w. intros s w [Hctx Hs].
  apply returns_bind. py_call (Mul w s c); [exact Hctx | exact Hs | exact Hc | exact Hfit |].
  clear Hctx w. intros l w [Hctx Hl].
  apply returns_bind. py_call (Mul w a c); [exact Hctx | exact Ha | exact Hc | exact Hfit |].
  clear Hctx w. intros ac w [Hctx Hac].
  apply returns_bind. py_call (Mul w b c); [exact Hctx | exact Hb | exact Hc | exact Hfit |].
  clear Hctx w. intros bc w [Hctx Hbc].
  apply returns_bind. py_call (Add w ac bc); [exact Hctx | exact Hac | exact Hbc |].
  clear Hctx w. intros r w [Hctx Hr].
  apply returns_bind.
  py_call (WrapperFacts._sub__spec sk groups encodes scheme o w l r);
    [exact Hctx | exact Hl | exact Hr |].
  clear Hctx w. intros d w [Hctx Hd]. rewrite Htop in Hd.
  apply returns_bind.
  py_call (WrapperFacts.__nonzero__spec sk groups encodes scheme o w d);
    [exact Hctx | exact Hd | |].
  { replace ((x + y) * z - (x * z + y * z)) with 0 by ring. apply Z.mod_0_l.
    pose proof (scheme_modulus _ _ _ scheme). lia. }
  intros nz w1 ->. by apply returns_ret.
Qed.

Lemma distributes_up_to_zero_test_ideal :
  exists w',
    (do s <~ _add_ (G := Ideal.engine) (Ideal.in_group0_of_two 2) (Ideal.in_group0_of_two 5) ;;
     do l <~ _mul_ s (Ideal.in_group1_of_two 3) ;;
     do ac <~ _mul_ (Ideal.in_group0_of_two 2) (Ideal.in_group1_of_two 3) ;;
     do bc <~ _mul_ (Ideal.in_group0_of_two 5) (Ideal.in_group1_of_two 3) ;;
     do r <~ _add_ ac bc ;;
     do d <~ _sub_ l r ;;
     do nz <~ __nonzero__ d ;;
     ret (negb nz)) (Ideal.world_of 2) = (inr true, w').
Proof.
  apply (distributes_up_to_zero_test (G := Ideal.engine) (Ideal.sk_of 2) 2
           (Ideal.encodes (Ideal.sk_of 2)) 0 (Ideal.world_of 2)
           (Ideal.in_group0_of_two 2) (Ideal.in_group0_of_two 5) (Ideal.in_group1_of_two 3)
           2 5 3 [1; 0] [0; 1]).
  - apply IdealFacts.ideal_scheme; reflexivity.
  - apply IdealFacts.ideal_context.
  - apply IdealFacts.ideal_encoding. unfold Ideal.modulus. lia.
  - apply IdealFacts.ideal_encoding. unfold Ideal.modulus. lia.
  - apply IdealFacts.ideal_encoding. unfold Ideal.modulus. lia.
  - reflexivity.
Defined.

(** X9: multiplication commutes up to the zero test: for encodings [a] and
    [b] of complementary degree vectors, [not bool(a * b - b * a)] is
    [True]. *)
Theorem multiplication_commutes_up_to_zero_test {G : GGHLite}
    (sk : gghlite_sk_t) (groups : nat) (encodes : gghlite_enc_t -> Z -> list Z -> Prop)
    (o : nat) (w : World Encoded_Parent) (a b : Encoded_Element) (x y : Z) (u v : list Z) :
  graded_encoding_scheme sk groups encodes ->
  context_at sk o w ->
  encoding_of encodes o a x u -> encoding_of encodes o b y v ->
  zip_with Z.add u v = replicate groups 1 ->
  exists w',
    (do ab <~ _mul_ a b ;;
     do ba <~ _mul_ b a ;;
     do d <~ _sub_ ab ba ;;
     do nz <~ __nonzero__ d ;;
     ret (negb nz)) w = (inr true, w').
Proof.
  intros scheme Hctx Ha Hb Htop.
  pose proof (WrapperFacts.top_fits groups u v Htop) as Hfit.
  match goal with
  | |- exists w', ?m w = _ => cut (returns m w (fun b _ => b = true))
  end.
  { intros (r & w' & Hrun & ->). exists w'. exact Hrun. }
  pose proof (WrapperFacts._mul__spec sk groups encodes scheme o) as Mul.
  apply returns_bind. py_call (Mul w a b); [exact Hctx | exact Ha | exact Hb | exact Hfit |].
  clear Hctx w. intros ab w [Hctx Hab].
  apply returns_bind. py_call (Mul w b a);
    [exact Hctx | exact Hb | exact Ha | by rewrite zip_with_add_comm |].
  clear Hctx w. intros ba w [Hctx Hba]. rewrite (zip_with_add_comm v u) in Hba.
  apply returns_bind.
  py_call (WrapperFacts._sub__spec sk groups encodes scheme o w ab ba);
    [exact Hctx | exact Hab | exact Hba |].
  clear Hctx w. intros d w [Hctx Hd]. rewrite Htop in Hd.
  apply returns_bind.
  py_call (WrapperFacts.__nonzero__spec sk groups encodes scheme o w d);
    [exact Hctx | exact Hd | |].
  { replace (x * y - y * x) with 0 by ring. apply Z.mod_0_l.
    pose proof (scheme_modulus _ _ _ scheme). lia. }
  intros nz w1 ->. by apply returns_ret.
Qed.

Lemma multiplication_commutes_up_to_zero_test_ideal :
  exists w',
    (do ab <~ _mul_ (G := Ideal.engine) (Ideal.in_group0_of_two 2) (Ideal.in_group1_of_two 3) ;;
     do ba <~ _mul_ (Ideal.in_group1_of_two 3) (Ideal.in_group0_of_two 2) ;;
     do d <~ _sub_ ab ba ;;
     do nz <~ __nonzero__ d ;;
     ret (negb nz)) (Ideal.world_of 2) = (inr true, w').
Proof.
  apply (multiplication_commutes_up_to_zero_test (G := Ideal.engine) (Ideal.sk_of 2) 2
           (Ideal.encodes (Ideal.sk_of 2)) 0 (Ideal.world_of 2)
           (Ideal.in_group0_of_two 2) (Ideal.in_group1_of_two 3) 2 3 [1; 0] [0; 1]).
  - apply IdealFacts.ideal_scheme; reflexivity.
  - apply IdealFacts.ideal_context.
  - apply IdealFacts.ideal_encoding. unfold Ideal.modulus. lia.
  - apply IdealFacts.ideal_encoding. unfold Ideal.modulus. lia.
  - reflexivity.
Defined.

(** X10: addition is homomorphic through the constructor.  In a context
    with one group, whatever [a] and [b] are,
    [not bool(Enc(a, 0) + Enc(b, 0) - Enc(a + b, 0))] is [True]. *)
Theorem adds_up_to_zero_test {G : GGHLite}
    (sk : gghlite_sk_t) (encodes : gghlite_enc_t -> Z -> list Z -> Prop)
    (o : nat) (w : World Encoded_Parent) (a b : Z) :
  graded_encoding_scheme sk 1 encodes -> context_at sk o w ->
  exists w',
    (do ea <~ Encoded_Element__init__ o a 0 ;;
     do eb <~ Encoded_Element__init__ o b 0 ;;
     do s <~ _add_ ea eb ;;
     do es <~ Encoded_Element__init__ o (a + b) 0 ;;
     do d <~ _sub_ s es ;;
     do nz <~ __nonzero__ d ;;
     ret (negb nz)) w = (inr true, w').
Proof.
  intros scheme Hctx.
  match goal with
  | |- exists w', ?m w = _ => cut (returns m w (fun b _ => b = true))
  end.
  { intros (r & w' & Hrun & ->). exists w'. exact Hrun. }
  pose proof (WrapperFacts.Encoded_Element__init__spec sk 1 encodes scheme o) as Encode.
  assert (Hsize : 0 <= 0 < Z.of_nat 1 /\ 0 <= SIZE_MAX) by (unfold SIZE_MAX; lia).
  apply returns_bind. py_call Encode; [exact Hctx | apply Hsize .. |].
  clear Hctx w. intros ea w [Hctx Hea].
  apply returns_bind. py_call Encode; [exact Hctx | apply Hsize .. |].
  clear Hctx w. intros eb w [Hctx Heb].
  apply returns_bind. py_call (WrapperFacts._add__spec sk 1 encodes scheme o w ea eb);
    [exact Hctx | exact Hea | exact Heb |].
  clear Hctx w. intros s w [Hctx Hs].
  apply returns_bind. py_call Encode; [exact Hctx | apply Hsize .. |].
  clear Hctx w. intros es w [Hctx Hes].
  apply returns_bind. py_call (WrapperFacts._sub__spec sk 1 encodes scheme o w s es);
    [exact Hctx | exact Hs | exact Hes |].
  clear Hctx w. intros d w [Hctx Hd].
  apply returns_bind.
  py_call (WrapperFacts.__nonzero__spec sk 1 encodes scheme o w d);
    [exact Hctx | exact Hd | |].
  { rewrite Z.sub_diag. apply Z.mod_0_l. pose proof (scheme_modulus _ _ _ scheme). lia. }
  intros nz w1 ->. by apply returns_ret.
Qed.

Lemma adds_up_to_zero_test_ideal :
  exists w',
    (do ea <~ Encoded_Element__init__ (G := Ideal.engine) 0 600 0 ;;
     do eb <~ Encoded_Element__init__ 0 700 0 ;;
     do s <~ _add_ ea eb ;;
     do es <~ Encoded_Element__init__ 0 (600 + 700) 0 ;;
     do d <~ _sub_ s es ;;
     do nz <~ __nonzero__ d ;;
     ret (negb nz)) (Ideal.world_of 1) = (inr true, w').
Proof.
  apply (adds_up_to_zero_test (G := Ideal.engine) (Ideal.sk_of 1)
           (Ideal.encodes (Ideal.sk_of 1)) 0 (Ideal.world_of 1) 600 700).
  - apply IdealFacts.ideal_scheme; reflexivity.
  - apply IdealFacts.ideal_context.
Defined.

(** ** [wrapper/test.sage] for other values of [levels] *)

(** The script is the one for [levels = 5]. *)
Lemma test_sage_with_5 {G : GGHLite} (draw : nat -> Z) :
  test_sage draw = test_sage_with 5 draw.
Proof. reflexivity. Qed.



(** X12: the script needs two levels.  With [levels] set to 0 or 1 it ends
    in the [TypeError] of a [reduce] over an empty list (of the plaintexts,
    or of the encodings of one); with a negative [levels], or one past
    2^64 - 1, the creation of the context raises [OverflowError]. *)
Theorem test_sage_needs_two_levels {G : GGHLite} (n : Z) (draw : nat -> Z) :
  (n < 0 \/ SIZE_MAX < n -> fst (test_sage_with n draw empty_world) = inl OverflowError) /\
  (n = 0 \/ n = 1 -> fst (test_sage_with n draw empty_world) = inl TypeError).
Proof.
  split.
  - intros Hn. unfold test_sage_with.
    rewrite (bind_raised _ _ _ _ _
               (WrapperFacts.Encoded_Parent__init__raised QQ n 20 0 None empty_world
                  ltac:(lia))).
    reflexivity.
  - intros [-> | ->]; reflexivity.
Qed.

Lemma test_sage_needs_two_levels_ideal :
  fst (test_sage_with (G := Ideal.engine) 1 (fun i => 5 + 1000 * Z.of_nat i) empty_world)
  = inl TypeError.
Proof.
  exact (proj2 (test_sage_needs_two_levels (G := Ideal.engine) 1 _) (or_intror eq_refl)).
Defined.
